(** * nginx_cache_file_info: the cache-file header parser and the expiry patch

    A shallow embedding of [nginx_cache_file_info.py] (Python 3 semantics:
    iterating a [bytes] object yields integers) and the properties of its
    header decoding, region extraction and in-place expiry patch.

    - [bytes] objects are lists of [byte]; [str] objects are lists of [ascii].
    - Python integers are [Z].
    - An exception aborts the computation: functions return [result];
      [parse_nginx_cache_file] also prints to stderr, so it lives in the
      monad [M] that pairs the lines printed so far with the outcome.
    - The file named by [cache_file] is modelled by its contents; the patch
      threads these contents explicitly. *)

From Stdlib Require Import ZArith List Lia.
From Stdlib Require Import Strings.Byte Strings.Ascii Strings.String.
From stdpp Require Import base decidable option list gmap sets.
Import ListNotations.

Local Open Scope Z_scope.

(** ** Python values *)

Abbreviation bytes := (list byte).
Abbreviation str := (list ascii).

Global Instance byte_eq_decision : EqDecision byte := Byte.byte_eq_dec.

(** The integer obtained when indexing or iterating a [bytes] object. *)
Definition byte_val (b : byte) : Z := Z.of_N (Byte.to_N b).

(** The byte holding [z mod 256]. *)
Definition byte_of_Z (z : Z) : byte :=
  default x00 (Byte.of_N (Z.to_N (z mod 256))).

(** [set(b)] for a [bytes] object [b]: the set of its integer values. *)
Definition set_of_bytes (b : bytes) : gset Z := list_to_set (byte_val <$> b).

(** A string literal as a [str]; [LF] is the character written [\n]. *)
Definition LF : ascii := ascii_of_nat 10.
Definition lit (s : string) : str := list_ascii_of_string s.

(** The literal prefix of the key text, [\nKEY: ]. *)
Definition KEY_PREFIX : str := LF :: lit "KEY: ".

(** ** Exceptions, results and the stderr-logging monad *)

Inductive exn : Type :=
  | UnexpectedVersion (version : Z)  (* Exception('Unexpected version: {}') *)
  | AssertionError
  | UnicodeDecodeError
  | StructError                      (* struct.error *)
  | IndexError
  | OverflowError
  | ValueError
  | OSError.

Inductive result (A : Type) : Type :=
  | Ok (a : A)
  | Raise (e : exn).
Arguments Ok {A} a.
Arguments Raise {A} e.

Global Instance result_fmap : FMap result := λ A B f r,
  match r with
  | Ok a => Ok (f a)
  | Raise e => Raise e
  end.

(** A line printed on stderr. *)
Inductive diagnostic : Type :=
  | UnexpectedNonZeroBytes (extra : bytes).

(** What was printed on stderr, and how the computation ended. *)
Definition M (A : Type) : Type := (list diagnostic * result A)%type.

Global Instance M_ret : MRet M := λ A a, ([], Ok a).
Global Instance M_bind : MBind M := λ A B f m,
  match m with
  | (w, Ok a) => let '(w', r) := f a in (w ++ w', r)
  | (w, Raise e) => (w, Raise e)
  end.

Definition lift {A} (r : result A) : M A := ([], r).
Definition raise {A} (e : exn) : M A := ([], Raise e).
Definition print_stderr (msg : diagnostic) : M unit := ([msg], Ok ()).
(** [assert c]. *)
Definition assert (c : bool) : M unit :=
  if c then mret () else raise AssertionError.

(** ** Sequence operations *)

(** A slice bound or index [i] on a sequence of length [n]: a negative [i]
    counts from the end.  Bounds past the end are clamped by [take]/[drop]. *)
Definition index_pos (n : nat) (i : Z) : nat :=
  if bool_decide (i < 0) then Z.to_nat (Z.of_nat n + i) else Z.to_nat i.

(** [l[i:j]], [l[i:]] and [l[:j]]. *)
Definition slice {A} (l : list A) (i j : Z) : list A :=
  let a := index_pos (length l) i in
  let b := index_pos (length l) j in
  take (b - a) (drop a l).
Definition slice_from {A} (l : list A) (i : Z) : list A :=
  drop (index_pos (length l) i) l.
Definition slice_to {A} (l : list A) (j : Z) : list A :=
  take (index_pos (length l) j) l.

(** [l[i]]: IndexError outside [-len(l) <= i < len(l)]. *)
Definition item {A} (l : list A) (i : Z) : result A :=
  let k := if bool_decide (i < 0) then Z.of_nat (length l) + i else i in
  if bool_decide (k < 0) then Raise IndexError
  else match l !! Z.to_nat k with
       | Some x => Ok x
       | None => Raise IndexError
       end.

(** [b.decode('ascii')]: strict, every byte must be below 128. *)
Definition decode_ascii (b : bytes) : result str :=
  if bool_decide (Forall (λ x, byte_val x < 128) b)
  then Ok (ascii_of_byte <$> b)
  else Raise UnicodeDecodeError.

(** ** The [struct] module, little-endian standard sizes ([<]) *)

Inductive format_char : Type := fmt_Q | fmt_I | fmt_H | fmt_B.

Definition format_size (c : format_char) : nat :=
  match c with
  | fmt_Q => 8
  | fmt_I => 4
  | fmt_H => 2
  | fmt_B => 1
  end%nat.

Definition calcsize (fmt : list format_char) : nat :=
  sum_list (format_size <$> fmt).

(** The unsigned integer whose little-endian bytes are [b]. *)
Fixpoint le_uint (b : bytes) : Z :=
  match b with
  | [] => 0
  | x :: b' => byte_val x + 256 * le_uint b'
  end.

(** The [n] little-endian bytes of [v]. *)
Fixpoint le_bytes (n : nat) (v : Z) : bytes :=
  match n with
  | O => []
  | S n' => byte_of_Z v :: le_bytes n' (v / 256)
  end.

Fixpoint unpack (fmt : list format_char) (buffer : bytes) : list Z :=
  match fmt with
  | [] => []
  | c :: fmt' =>
      le_uint (take (format_size c) buffer)
        :: unpack fmt' (drop (format_size c) buffer)
  end.

(** [struct.unpack_from(fmt, buffer, offset)]; [offset] defaults to 0 in
    Python, here it is always written out. *)
Definition unpack_from (fmt : list format_char) (buffer : bytes)
    (offset : nat) : result (list Z) :=
  if bool_decide (length buffer - offset < calcsize fmt)%nat
  then Raise StructError
  else Ok (unpack fmt (drop offset buffer)).

(** [struct.pack('<Q', v)]. *)
Definition pack_Q (v : Z) : result bytes :=
  if bool_decide (0 ≤ v < 2 ^ 64) then Ok (le_bytes 8 v) else Raise StructError.

(** ** [datetime] and the local time zone *)

(** A naive [datetime]: [dt_wall] is its wall-clock reading counted in
    whole seconds from 1970-01-01T00:00:00 on the proleptic Gregorian
    calendar (year, month, day, hour, minute and second in one number), and
    [dt_microsecond] its microsecond field. *)
Record datetime : Type := mk_datetime {
  dt_wall : Z;
  dt_microsecond : Z
}.

(** [datetime.min] is 0001-01-01T00:00:00 and [datetime.max] is
    9999-12-31T23:59:59 (and 999999 microseconds). *)
Definition datetime_min : Z := -62135596800.
Definition datetime_max : Z := 253402300799.

(** The platform's [time_t] is a signed 64-bit integer. *)
Definition time_t_min : Z := - 2 ^ 63.
Definition time_t_max : Z := 2 ^ 63 - 1.

(** The local times that the C [localtime] can return: their year less 1900
    has to fit [tm_year], an [int], so they run from the first second of the
    year -2147481748 to the last second of the year 2147485547. *)
Definition tm_min : Z := -67768040609740800.
Definition tm_max : Z := 67768036191676799.

(** The local time zone of the process, as the C library exposes it:
    [localtime t] is the wall-clock reading at [t] seconds after the epoch,
    [mktime s] the seconds after the epoch at which the wall clock reads [s]
    (with [tm_isdst = -1], as [datetime.timetuple] sets it). *)
Record LocalZone : Type := mk_zone {
  localtime : Z → Z;
  mktime : Z → Z
}.

(** A zone at a fixed offset east of UTC, and UTC itself. *)
Definition fixed_zone (offset : Z) : LocalZone :=
  {| localtime := λ t, t + offset; mktime := λ s, s - offset |}.
Definition utc : LocalZone := fixed_zone 0.

(** [datetime.fromtimestamp(t)] for an integer [t]: OverflowError when [t]
    does not fit [time_t], OSError when the C [localtime] fails on it, and
    ValueError when the year of the local time is outside 1..9999. *)
Definition fromtimestamp (tz : LocalZone) (t : Z) : result datetime :=
  if bool_decide (time_t_min ≤ t ≤ time_t_max) then
    let wall := localtime tz t in
    if bool_decide (tm_min ≤ wall ≤ tm_max) then
      if bool_decide (datetime_min ≤ wall ≤ datetime_max)
      then Ok (mk_datetime wall 0)
      else Raise ValueError
    else Raise OSError
  else Raise OverflowError.

(** [int(time.mktime(dt.timetuple()))]: the time tuple drops the
    microseconds; OverflowError when the result does not fit [time_t]. *)
Definition mktime_timetuple (tz : LocalZone) (dt : datetime) : result Z :=
  let t := mktime tz (dt_wall dt) in
  if bool_decide (time_t_min ≤ t ≤ time_t_max) then Ok t
  else Raise OverflowError.

(** ** The program *)

Definition string_or_none (b : bytes) : result (option str) :=
  if bool_decide (set_of_bytes b = {[ 0 ]}) then Ok None
  else Some <$> decode_ascii b.

Definition datetime_or_none (tz : LocalZone) (timet : Z)
    : result (option datetime) :=
  let timet_max := 2 ^ 64 - 1 in
  if bool_decide (timet = timet_max) then Ok None
  else Some <$> fromtimestamp tz timet.

Definition NGINX_CACHE_HEADER_SIZE : Z := 336.

Record NginxCacheHeader : Type := mk_header {
  version : Z;
  valid_sec : option datetime;
  updating_sec : Z;
  error_sec : Z;
  last_modified : option datetime;
  date : option datetime;
  crc32 : Z;
  valid_msec : Z;
  header_start : Z;
  body_start : Z;
  etag_len : Z;
  etag : option str;
  vary_len : Z;
  vary : option str;
  variant : option str
}.

(** [formats[0]] and [formats[2]]; the other entries of [formats] are never
    used. *)
Definition formats_0 : list format_char :=
  [fmt_Q; fmt_Q; fmt_Q; fmt_Q; fmt_Q; fmt_Q; fmt_I; fmt_H; fmt_H; fmt_H; fmt_B].
Definition formats_2 : list format_char := [fmt_B].

(** [fields[i]] of an unpacked list. *)
Definition field (fields : list Z) (i : nat) : Z := fields !!! i.

(** Lines 82 to 126 of [parse_nginx_cache_file]: the fixed header, from the
    file contents [d].  Both calls of [unpack_from] leave the offset at its
    default, 0.  The test of line 123 has a second conjunct,
    [set(extra) != {'\x00'}], written for Python 2: a set of integers never
    equals a set holding a string, so it always holds and is left out. *)
Definition decode_header (tz : LocalZone) (d : bytes) : M NginxCacheHeader :=
  let header := slice_to d NGINX_CACHE_HEADER_SIZE in
  fields ← lift (unpack_from formats_0 header 0);
  let offset := Z.of_nat (calcsize formats_0) in
  if bool_decide (field fields 0 ≠ 5) then
    raise (UnexpectedVersion (field fields 0))
  else
    f1 ← lift (datetime_or_none tz (field fields 1));
    f4 ← lift (datetime_or_none tz (field fields 4));
    f5 ← lift (datetime_or_none tz (field fields 5));
    (* etag *)
    f11 ← lift (string_or_none (slice header offset (offset + 128)));
    let offset := offset + 128 in
    (* vary_len *)
    f12 ← lift (unpack_from formats_2 header 0);
    let f12 := field f12 0 in
    let offset := offset + Z.of_nat (calcsize formats_2) in
    (* vary *)
    f13 ← lift (string_or_none (slice header offset (offset + 128)));
    let offset := offset + 128 in
    (* variant *)
    f14 ← lift (string_or_none (slice header offset (offset + 16)));
    let offset := offset + 16 in
    _ ← assert (bool_decide (NGINX_CACHE_HEADER_SIZE - offset = 4));
    let extra := slice d offset NGINX_CACHE_HEADER_SIZE in
    _ ← (if bool_decide (set_of_bytes extra ≠ {[ 0 ]})
         then print_stderr (UnexpectedNonZeroBytes extra)
         else mret ());
    mret (mk_header (field fields 0) f1 (field fields 2) (field fields 3)
            f4 f5 (field fields 6) (field fields 7) (field fields 8)
            (field fields 9) (field fields 10) f11 f12 f13 f14).

(** Lines 127 to 133: the key, the HTTP header block and the body. *)
Definition extract_regions (d : bytes) (hdr : NginxCacheHeader)
    : M (str * str * bytes) :=
  key ← lift (decode_ascii
                (slice d NGINX_CACHE_HEADER_SIZE (header_start hdr)));
  _ ← assert (bool_decide (slice_to key 6 = KEY_PREFIX));
  last ← lift (item key (-1));
  _ ← assert (bool_decide (last = LF));
  let key := slice key 6 (-1) in
  http_header ← lift (decode_ascii
                        (slice d (header_start hdr) (body_start hdr)));
  let http_body := slice_from d (body_start hdr) in
  mret (key, http_header, http_body).

Definition parse_nginx_cache_file (tz : LocalZone) (d : bytes)
    : M (NginxCacheHeader * str * str * bytes) :=
  hdr ← decode_header tz d;
  '(key, http_header, http_body) ← extract_regions d hdr;
  mret (hdr, key, http_header, http_body).

(** [f.seek(pos); f.write(data)] on a file opened with [r+b] whose contents
    are [d]: a gap past the end of the file reads as zeros. *)
Definition seek_write (pos : nat) (data : bytes) (d : bytes) : bytes :=
  take pos d ++ replicate (pos - length d) x00 ++ data
    ++ drop (pos + length data) d.

(** The contents of the file after the call, and how the call ended. *)
Definition set_expire_nginx_cache_file (tz : LocalZone) (d : bytes)
    (expiredt : datetime) : bytes * result unit :=
  match mktime_timetuple tz expiredt with
  | Raise e => (d, Raise e)
  | Ok valid_sec =>
      match pack_Q valid_sec with
      | Raise e => (d, Raise e)
      | Ok data => (seek_write 8 data d, Ok ())
      end
  end.

(** ** Sample files *)

(** The bytes of a [ngx_http_file_cache_header_t] followed by the four bytes
    of padding [pad], as nginx lays them out. *)
Definition header_bytes (version valid_sec updating_sec error_sec
    last_modified date crc32 valid_msec header_start body_start
    etag_len : Z) (etag : bytes) (vary_len : Z) (vary variant pad : bytes)
    : bytes :=
  le_bytes 8 version ++ le_bytes 8 valid_sec ++ le_bytes 8 updating_sec
    ++ le_bytes 8 error_sec ++ le_bytes 8 last_modified ++ le_bytes 8 date
    ++ le_bytes 4 crc32 ++ le_bytes 2 valid_msec ++ le_bytes 2 header_start
    ++ le_bytes 2 body_start ++ le_bytes 1 etag_len
    ++ take 128 (etag ++ replicate 128 x00)
    ++ le_bytes 1 vary_len
    ++ take 128 (vary ++ replicate 128 x00)
    ++ take 16 (variant ++ replicate 16 x00)
    ++ take 4 (pad ++ replicate 4 x00).

Definition ascii_bytes (s : string) : bytes := list_byte_of_string s.

(** A cache file with the given version, expiry, offsets, etag and padding;
    the other instants are absent except [updating_sec] and [error_sec],
    which are 0, and the byte at offset 187 ([vary_len]) is 7. *)
Definition cache_file (version valid_sec header_start body_start : Z)
    (etag pad rest : bytes) : bytes :=
  header_bytes version valid_sec 0 0 (2 ^ 64 - 1) (2 ^ 64 - 1) 3735928559 0
      header_start body_start 0 etag 7 [] [] pad
    ++ rest.

(** The key [abc123] wrapped as [\nKEY: abc123\n] (13 bytes), 37 bytes of
    HTTP headers and a 5-byte body. *)
Definition sample_rest : bytes :=
  x0a :: ascii_bytes "KEY: abc123" ++ [x0a]
    ++ ascii_bytes "HTTP/1.1 200 OK" ++ [x0d; x0a]
    ++ ascii_bytes "Server: nginx" ++ [x0d; x0a] ++ [x0d; x0a; x0d; x0a; x0a]
    ++ ascii_bytes "hello".

(** Version 5, expiry 1700000000, no etag, vary or variant; the HTTP headers
    start at 349 and the body at 386. *)
Definition sample_file : bytes :=
  cache_file 5 1700000000 349 386 [] [] sample_rest.

(** The same file as [sample_file], with version 4. *)
Definition version_4_file : bytes :=
  cache_file 4 1700000000 349 386 [] [] sample_rest.

(** Variants of [sample_file]: an etag [abc]; an expiry of [2^64 - 2]; a
    body offset below the header offset; a body offset past the end of the
    file; a key region that starts with the byte 255; non-zero padding. *)
Definition etag_file : bytes :=
  cache_file 5 1700000000 349 386 (ascii_bytes "abc") [] sample_rest.
Definition far_future_file : bytes :=
  cache_file 5 (2 ^ 64 - 2) 349 386 [] [] sample_rest.
Definition swapped_offsets_file : bytes :=
  cache_file 5 1700000000 349 340 [] [] sample_rest.
Definition short_file : bytes :=
  cache_file 5 1700000000 349 1000 [] [] sample_rest.
Definition binary_key_file : bytes :=
  cache_file 5 1700000000 349 386 [] [] (xff :: sample_rest).
Definition padded_file : bytes :=
  cache_file 5 1700000000 349 386 [] [x00; x01] sample_rest.

(** The header that [sample_file] and its variants decode to, up to the
    offsets and the etag. *)
Definition sample_header (header_start body_start : Z) (etag : option str)
    : NginxCacheHeader :=
  mk_header 5 (Some (mk_datetime 1700000000 0)) 0 0 None None 3735928559 0
    header_start body_start 0 etag 5 None None.

(** The text of the HTTP headers of [sample_file]. *)
Definition sample_http_header : str :=
  ascii_of_byte <$> slice sample_file 349 386.

(** ** Auxiliary definitions for the statements *)

(** [decodes_to tz d w hdr]: the header [hdr] and the stderr lines [w] that
    [decode_header] yields on [d], stated slice by slice. *)
Record decodes_to (tz : LocalZone) (d : bytes) (w : list diagnostic)
    (hdr : NginxCacheHeader) : Prop := {
  dec_length : (59 ≤ length d)%nat;
  dec_version : version hdr = le_uint (slice d 0 8);
  dec_version_5 : le_uint (slice d 0 8) = 5;
  dec_valid_sec :
    datetime_or_none tz (le_uint (slice d 8 16)) = Ok (valid_sec hdr);
  dec_updating_sec : updating_sec hdr = le_uint (slice d 16 24);
  dec_error_sec : error_sec hdr = le_uint (slice d 24 32);
  dec_last_modified :
    datetime_or_none tz (le_uint (slice d 32 40)) = Ok (last_modified hdr);
  dec_date : datetime_or_none tz (le_uint (slice d 40 48)) = Ok (date hdr);
  dec_crc32 : crc32 hdr = le_uint (slice d 48 52);
  dec_valid_msec : valid_msec hdr = le_uint (slice d 52 54);
  dec_header_start : header_start hdr = le_uint (slice d 54 56);
  dec_body_start : body_start hdr = le_uint (slice d 56 58);
  dec_etag_len : etag_len hdr = le_uint (slice d 58 59);
  dec_etag : string_or_none (slice d 59 187) = Ok (etag hdr);
  dec_vary_len : vary_len hdr = le_uint (slice d 0 1);
  dec_vary : string_or_none (slice d 188 316) = Ok (vary hdr);
  dec_variant : string_or_none (slice d 316 332) = Ok (variant hdr);
  dec_stderr :
    w = if bool_decide (set_of_bytes (slice d 332 336) ≠ {[ 0 ]})
        then [UnexpectedNonZeroBytes (slice d 332 336)] else []
}.

(** [hdr] with other offsets, and [hdr] with another expiry. *)
Definition set_offsets (hs bs : Z) (hdr : NginxCacheHeader)
    : NginxCacheHeader :=
  mk_header (version hdr) (valid_sec hdr) (updating_sec hdr) (error_sec hdr)
    (last_modified hdr) (date hdr) (crc32 hdr) (valid_msec hdr) hs bs
    (etag_len hdr) (etag hdr) (vary_len hdr) (vary hdr) (variant hdr).

Definition set_valid_sec (v : option datetime) (hdr : NginxCacheHeader)
    : NginxCacheHeader :=
  mk_header (version hdr) v (updating_sec hdr) (error_sec hdr)
    (last_modified hdr) (date hdr) (crc32 hdr) (valid_msec hdr)
    (header_start hdr) (body_start hdr) (etag_len hdr) (etag hdr)
    (vary_len hdr) (vary hdr) (variant hdr).

(** The contents [d] with the bytes from [pos] on overwritten by [data]. *)
Definition splice (pos : nat) (data : bytes) (d : bytes) : bytes :=
  take pos d ++ data ++ drop (pos + length data) d.

(** The bytes of [b] without its trailing zero bytes. *)
Fixpoint strip_trailing_zeros (b : bytes) : bytes :=
  match b with
  | [] => []
  | x :: b' =>
      match strip_trailing_zeros b' with
      | [] => if bool_decide (x = x00) then [] else [x]
      | r => x :: r
      end
  end.


(** ** The command line *)

(** The formats that [parse_date_string] tries, in its order:
    [%Y-%m-%dT%H:%M:%S], [%Y-%m-%d %H:%M:%S] and [%Y-%m-%d]. *)
Inductive date_format : Type := fmt_date_T_time | fmt_date_time | fmt_date.

Definition date_formats : list date_format :=
  [fmt_date_T_time; fmt_date_time; fmt_date].

(** The parsed arguments: [--set-expire], the files and [--quiet]. *)
Record Args : Type := mk_args {
  arg_set_expire : option str;
  arg_files : list string;
  arg_quiet : bool
}.

(** The value of a header field, as [print] receives it. *)
Inductive pyval : Type :=
  | VInt (z : Z)
  | VNone
  | VDatetime (dt : datetime)
  | VStr (s : str).

Definition datetime_val (o : option datetime) : pyval :=
  match o with Some dt => VDatetime dt | None => VNone end.
Definition str_val (o : option str) : pyval :=
  match o with Some s => VStr s | None => VNone end.

(** [hdr._asdict().items()]: the fields in their order. *)
Definition asdict_items (hdr : NginxCacheHeader) : list (string * pyval) :=
  [ ("version", VInt (version hdr));
    ("valid_sec", datetime_val (valid_sec hdr));
    ("updating_sec", VInt (updating_sec hdr));
    ("error_sec", VInt (error_sec hdr));
    ("last_modified", datetime_val (last_modified hdr));
    ("date", datetime_val (date hdr));
    ("crc32", VInt (crc32 hdr));
    ("valid_msec", VInt (valid_msec hdr));
    ("header_start", VInt (header_start hdr));
    ("body_start", VInt (body_start hdr));
    ("etag_len", VInt (etag_len hdr));
    ("etag", str_val (etag hdr));
    ("vary_len", VInt (vary_len hdr));
    ("vary", str_val (vary hdr));
    ("variant", str_val (variant hdr)) ]%string.

(** A call of [print] on stdout, by its format and arguments. *)
Inductive stdout_item : Type :=
  | PrintHeaderTitle (cache_file : string)  (* ** Nginx cache header ** {} *)
  | PrintField (k : string) (v : pyval)     (* {}: {} *)
  | PrintKey (key : str)                    (* ** Nginx cache key ** *)
  | PrintHttpHeaders (http_header : str)    (* ** HTTP headers ** *)
  | PrintBodyLength (n : nat).              (* ** HTTP body length ** *)

(** [s.strip()]: without the leading and trailing whitespace, which for
    ASCII text is the characters 9..13, 28..31 and 32. *)
Definition is_space (c : ascii) : bool :=
  let n := nat_of_ascii c in
  ((9 <=? n) && (n <=? 13) || (28 <=? n) && (n <=? 32))%nat.

Fixpoint lstrip (s : str) : str :=
  match s with
  | c :: s' => if is_space c then lstrip s' else s
  | [] => []
  end.

Definition strip (s : str) : str := reverse (lstrip (reverse (lstrip s))).

(** What ends [main] early: a file that cannot be opened, or an exception
    of the functions above. *)
Inductive cli_exn : Type :=
  | FileNotFoundError (cache_file : string)
  | Uncaught (e : exn).

Inductive outcome (A : Type) : Type :=
  | Done (a : A)
  | Failed (e : cli_exn).
Arguments Done {A} a.
Arguments Failed {A} e.

(** The files by name, and what was printed on stdout and stderr. *)
Record world : Type := mk_world {
  fs : gmap string bytes;
  stdout : list stdout_item;
  stderr : list diagnostic
}.

(** A command: it changes the world and ends with a value or early. *)
Definition IO (A : Type) : Type := world → world * outcome A.

Global Instance IO_ret : MRet IO := λ A a w, (w, Done a).
Global Instance IO_bind : MBind IO := λ A B f m w,
  match m w with
  | (w', Done a) => f a w'
  | (w', Failed e) => (w', Failed e)
  end.

Definition io_result {A} (r : result A) : IO A := λ w,
  match r with
  | Ok a => (w, Done a)
  | Raise e => (w, Failed (Uncaught e))
  end.

(** The contents of the file opened under [cache_file]. *)
Definition io_open (cache_file : string) : IO bytes := λ w,
  match fs w !! cache_file with
  | Some d => (w, Done d)
  | None => (w, Failed (FileNotFoundError cache_file))
  end.

Definition io_store (cache_file : string) (d : bytes) : IO unit := λ w,
  (mk_world (<[cache_file := d]> (fs w)) (stdout w) (stderr w), Done ()).

Definition io_print (items : list stdout_item) : IO unit := λ w,
  (mk_world (fs w) (stdout w ++ items) (stderr w), Done ()).

Definition io_stderr (lines : list diagnostic) : IO unit := λ w,
  (mk_world (fs w) (stdout w) (stderr w ++ lines), Done ()).

(** [for x in l: body(x)]. *)
Fixpoint for_each {A} (body : A → IO unit) (l : list A) : IO unit :=
  match l with
  | [] => mret ()
  | x :: l' => _ ← body x; for_each body l'
  end.

Section cli.
Variable tz : LocalZone.

(** [datetime.strptime(s, fmt)], with [None] for its ValueError. *)
Variable strptime : str → date_format → option datetime.

Fixpoint try_formats (s : str) (fmts : list date_format) : result datetime :=
  match fmts with
  | fmt :: fmts' =>
      match strptime s fmt with
      | Some dt => Ok dt
      | None => try_formats s fmts'
      end
  | [] => Raise ValueError
  end.

Definition parse_date_string (s : str) : result datetime :=
  try_formats s date_formats.

(** [parse_nginx_cache_file(cache_file)] on the file of that name. *)
Definition parse_file (cache_file : string)
    : IO (NginxCacheHeader * str * str * bytes) :=
  d ← io_open cache_file;
  let '(printed, r) := parse_nginx_cache_file tz d in
  _ ← io_stderr printed;
  io_result r.

(** [set_expire_nginx_cache_file(cache_file, expiredt)] on the file of that
    name. *)
Definition set_expire_file (cache_file : string) (expiredt : datetime)
    : IO unit :=
  d ← io_open cache_file;
  let '(d', r) := set_expire_nginx_cache_file tz d expiredt in
  _ ← io_store cache_file d';
  io_result r.

(** What [main] prints for a file: the title, the fields, the key, the
    stripped HTTP headers and the length of the body. *)
Definition record_items (cache_file : string) (hdr : NginxCacheHeader)
    (key http_header : str) (http_body : bytes) : list stdout_item :=
  PrintHeaderTitle cache_file
    :: (map (λ kv, PrintField kv.1 kv.2) (asdict_items hdr))
    ++ [ PrintKey key; PrintHttpHeaders (strip http_header);
         PrintBodyLength (length http_body) ].

(** [if args.set_expire:] holds for a string that is not empty. *)
Definition set_expire_given (args : Args) : option str :=
  match arg_set_expire args with
  | Some (c :: s) => Some (c :: s)
  | _ => None
  end.

(** The body of the loop of [main]. *)
Definition main_body (args : Args) (cache_file : string) : IO unit :=
  '(hdr, key, http_header, http_body) ← parse_file cache_file;
  _ ← match set_expire_given args with
      | Some s =>
          set_expire ← io_result (parse_date_string s);
          set_expire_file cache_file set_expire
      | None => mret ()
      end;
  if arg_quiet args then mret ()
  else io_print (record_items cache_file hdr key http_header http_body).

Definition main (args : Args) : IO unit :=
  for_each (main_body args) (arg_files args).

End cli.

(** A [strptime] for the examples: every string is the date [dt] in the
    format [%Y-%m-%d], and no string has another format. *)
Definition sample_strptime (dt : datetime) (s : str) (fmt : date_format)
    : option datetime :=
  match fmt with fmt_date => Some dt | _ => None end.

(** Two files by name, one that parses and one of version 4. *)
Definition sample_world : world :=
  mk_world {[ "a"%string := sample_file; "b"%string := version_4_file ]}
    [] [].

(** [d'] is [d] but for its bytes 8..15. *)
Definition same_but_expiry (d d' : bytes) : Prop :=
  length d' = length d ∧ ∀ i, (i < 8 ∨ 16 ≤ i)%nat → d' !! i = d !! i.
(** * Properties *)

(** ** Bytes and little-endian integers *)

Lemma byte_val_range (b : byte) : 0 ≤ byte_val b < 256.
Proof.
  unfold byte_val. pose proof (Byte.to_N_bounded b) as Hb. lia.
Qed.

Lemma byte_val_inj (a b : byte) : byte_val a = byte_val b → a = b.
Proof.
  unfold byte_val. intros H. apply N2Z.inj in H.
  apply (f_equal Byte.of_N) in H. rewrite !Byte.of_to_N in H. congruence.
Qed.

Lemma byte_val_zero (b : byte) : byte_val b = 0 ↔ b = x00.
Proof.
  split; [|intros ->; reflexivity].
  intros H. apply byte_val_inj. rewrite H. reflexivity.
Qed.

Lemma byte_val_of_Z (z : Z) : byte_val (byte_of_Z z) = z mod 256.
Proof.
  unfold byte_of_Z, byte_val.
  assert (Hz : 0 ≤ z mod 256 < 256) by (apply Z.mod_pos_bound; lia).
  destruct (Byte.of_N (Z.to_N (z mod 256))) as [b|] eqn:Hb; simpl.
  - apply Byte.to_of_N in Hb. rewrite Hb. lia.
  - apply Byte.of_N_None_iff in Hb. lia.
Qed.

Lemma le_uint_range (b : bytes) : 0 ≤ le_uint b < 256 ^ Z.of_nat (length b).
Proof.
  induction b as [|x b IH]; simpl le_uint; simpl length; [lia|].
  pose proof (byte_val_range x).
  rewrite Nat2Z.inj_succ, Z.pow_succ_r by lia. lia.
Qed.

Lemma le_uint_nonneg (b : bytes) : 0 ≤ le_uint b.
Proof. apply le_uint_range. Qed.

Lemma le_bytes_length (n : nat) (v : Z) : length (le_bytes n v) = n.
Proof. revert v. induction n as [|n IH]; intros v; simpl; [done|]. by rewrite IH. Qed.

Lemma le_uint_le_bytes (n : nat) (v : Z) :
  le_uint (le_bytes n v) = v mod 256 ^ Z.of_nat n.
Proof.
  revert v. induction n as [|n IH]; intros v.
  - simpl. by rewrite Z.mod_1_r.
  - cbn [le_bytes le_uint]. rewrite IH, byte_val_of_Z.
    rewrite Nat2Z.inj_succ, Z.pow_succ_r by lia.
    rewrite Z.rem_mul_r by lia. lia.
Qed.

Lemma le_uint_le_bytes_id (n : nat) (v : Z) :
  0 ≤ v < 256 ^ Z.of_nat n → le_uint (le_bytes n v) = v.
Proof. intros. rewrite le_uint_le_bytes. by apply Z.mod_small. Qed.

(** ** [set(b) == {0}] *)

Lemma set_of_bytes_zero (b : bytes) :
  set_of_bytes b = {[ 0 ]} ↔ b ≠ [] ∧ Forall (λ x, x = x00) b.
Proof.
  unfold set_of_bytes. split.
  - intros H. split.
    + intros ->. simpl in H. set_solver.
    + apply Forall_forall. intros x Hx. apply byte_val_zero.
      assert (byte_val x ∈ (list_to_set (byte_val <$> b) : gset Z)) as Hin.
      { apply elem_of_list_to_set, list_elem_of_fmap. eauto. }
      rewrite H in Hin. set_solver.
  - intros [Hne Hall]. apply set_eq. intros z.
    rewrite elem_of_list_to_set, list_elem_of_fmap, elem_of_singleton. split.
    + intros (x & -> & Hx). rewrite Forall_forall in Hall.
      rewrite (Hall x Hx). reflexivity.
    + intros ->. destruct b as [|x b]; [done|]. exists x. split.
      * apply Forall_inv in Hall. by subst.
      * left.
Qed.

(** ** Slices *)

Lemma index_pos_nonneg (n : nat) (i : Z) : 0 ≤ i → index_pos n i = Z.to_nat i.
Proof. intros. unfold index_pos. by rewrite bool_decide_eq_false_2 by lia. Qed.

Lemma slice_nonneg {A} (l : list A) (i j : Z) :
  0 ≤ i → 0 ≤ j →
  slice l i j = take (Z.to_nat j - Z.to_nat i) (drop (Z.to_nat i) l).
Proof. intros. unfold slice. by rewrite !index_pos_nonneg. Qed.

Lemma slice_to_nonneg {A} (l : list A) (j : Z) :
  0 ≤ j → slice_to l j = take (Z.to_nat j) l.
Proof. intros. unfold slice_to. by rewrite index_pos_nonneg. Qed.

Lemma slice_from_nonneg {A} (l : list A) (i : Z) :
  0 ≤ i → slice_from l i = drop (Z.to_nat i) l.
Proof. intros. unfold slice_from. by rewrite index_pos_nonneg. Qed.

Lemma take_drop_take {A} (l : list A) (a n m : nat) :
  (a + n ≤ m)%nat → take n (drop a (take m l)) = take n (drop a l).
Proof.
  intros. rewrite !take_drop_commute, take_take.
  by rewrite Nat.min_l by lia.
Qed.

Lemma slice_length {A} (l : list A) (i j : Z) :
  0 ≤ i ≤ j → j ≤ Z.of_nat (length l) →
  length (slice l i j) = Z.to_nat (j - i).
Proof.
  intros. rewrite slice_nonneg by lia. rewrite length_take, length_drop. lia.
Qed.

(** Slices with literal bounds become [take]/[drop] with literal counts. *)
Ltac literal_slices :=
  rewrite ?slice_to_nonneg, ?slice_from_nonneg, ?slice_nonneg by lia;
  repeat match goal with
  | |- context [Z.to_nat (Zpos ?p)] =>
      let n := eval vm_compute in (Z.to_nat (Zpos p)) in
      change (Z.to_nat (Zpos p)) with n
  | |- context [Z.to_nat Z0] => change (Z.to_nat Z0) with O
  end;
  cbn [Nat.sub].

(** ** The header decoder, field by field *)

Lemma unpack_formats_0 (h : bytes) :
  unpack formats_0 h =
    [ le_uint (take 8 h); le_uint (take 8 (drop 8 h));
      le_uint (take 8 (drop 16 h)); le_uint (take 8 (drop 24 h));
      le_uint (take 8 (drop 32 h)); le_uint (take 8 (drop 40 h));
      le_uint (take 4 (drop 48 h)); le_uint (take 2 (drop 52 h));
      le_uint (take 2 (drop 54 h)); le_uint (take 2 (drop 56 h));
      le_uint (take 1 (drop 58 h)) ].
Proof.
  unfold formats_0. cbn [unpack format_size]. by rewrite !drop_drop.
Qed.

Lemma unpack_formats_2 (h : bytes) :
  unpack formats_2 h = [ le_uint (take 1 h) ].
Proof. reflexivity. Qed.

Lemma calcsize_formats_0 : calcsize formats_0 = 59%nat.
Proof. reflexivity. Qed.

Lemma calcsize_formats_2 : calcsize formats_2 = 1%nat.
Proof. reflexivity. Qed.

Lemma unpack_from_short (fmt : list format_char) (h : bytes) :
  (length h < calcsize fmt)%nat → unpack_from fmt h 0 = Raise StructError.
Proof.
  intros. unfold unpack_from. rewrite bool_decide_eq_true_2 by lia. done.
Qed.

Lemma unpack_from_start (fmt : list format_char) (h : bytes) :
  (calcsize fmt ≤ length h)%nat → unpack_from fmt h 0 = Ok (unpack fmt h).
Proof.
  intros. unfold unpack_from. rewrite bool_decide_eq_false_2 by lia. done.
Qed.

Lemma bind_lift_Ok {A B} (a : A) (f : A → M B) : lift (Ok a) ≫= f = f a.
Proof. unfold lift, mbind, M_bind. by destruct (f a). Qed.

Lemma bind_lift_Raise {A B} (e : exn) (f : A → M B) :
  lift (Raise e) ≫= f = raise e.
Proof. reflexivity. Qed.

Lemma decode_header_short (tz : LocalZone) (d : bytes) :
  (length d < 59)%nat → decode_header tz d = raise StructError.
Proof.
  intros Hd. unfold decode_header.
  rewrite (unpack_from_short formats_0); [reflexivity|].
  rewrite calcsize_formats_0. unfold NGINX_CACHE_HEADER_SIZE.
  literal_slices. rewrite length_take. lia.
Qed.

Lemma decode_header_fields (tz : LocalZone) (d : bytes) :
  (59 ≤ length d)%nat →
  decode_header tz d =
    let v := le_uint (slice d 0 8) in
    if bool_decide (v ≠ 5) then raise (UnexpectedVersion v)
    else
      f1 ← lift (datetime_or_none tz (le_uint (slice d 8 16)));
      f4 ← lift (datetime_or_none tz (le_uint (slice d 32 40)));
      f5 ← lift (datetime_or_none tz (le_uint (slice d 40 48)));
      f11 ← lift (string_or_none (slice d 59 187));
      f13 ← lift (string_or_none (slice d 188 316));
      f14 ← lift (string_or_none (slice d 316 332));
      _ ← (if bool_decide (set_of_bytes (slice d 332 336) ≠ {[ 0 ]})
           then print_stderr (UnexpectedNonZeroBytes (slice d 332 336))
           else mret ());
      mret (mk_header v f1 (le_uint (slice d 16 24)) (le_uint (slice d 24 32))
              f4 f5 (le_uint (slice d 48 52)) (le_uint (slice d 52 54))
              (le_uint (slice d 54 56)) (le_uint (slice d 56 58))
              (le_uint (slice d 58 59)) f11 (le_uint (slice d 0 1)) f13 f14).
Proof.
  intros Hd. unfold decode_header.
  assert (Hh : (59 ≤ length (slice_to d NGINX_CACHE_HEADER_SIZE))%nat).
  { unfold NGINX_CACHE_HEADER_SIZE. literal_slices. rewrite length_take. lia. }
  rewrite !unpack_from_start
    by (rewrite ?calcsize_formats_0, ?calcsize_formats_2; lia).
  rewrite calcsize_formats_0, calcsize_formats_2.
  unfold NGINX_CACHE_HEADER_SIZE.
  change (Z.of_nat 59 + 128 + Z.of_nat 1 + 128 + 16) with 332.
  change (Z.of_nat 59 + 128 + Z.of_nat 1 + 128) with 316.
  change (Z.of_nat 59 + 128 + Z.of_nat 1) with 188.
  change (Z.of_nat 59 + 128) with 187.
  change (Z.of_nat 59) with 59.
  literal_slices.
  rewrite unpack_formats_0, unpack_formats_2.
  rewrite !take_drop_take by lia. rewrite !take_take, !drop_0.
  cbn [Nat.min].
  rewrite bind_lift_Ok. unfold field. cbn [lookup_total list_lookup_total].
  destruct (bool_decide (le_uint (take 8 d) ≠ 5)); [reflexivity|].
  repeat match goal with
  | |- context [lift ?r ≫= _] =>
      lazymatch r with
      | Ok _ => fail
      | _ => destruct r; [|reflexivity]
      end
  end.
  by destruct (bool_decide _).
Qed.

(** ** Outcomes of monadic steps *)

Lemma bind_lift_Ok_inv {A B} (r : result A) (f : A → M B) w (b : B) :
  lift r ≫= f = (w, Ok b) → ∃ a, r = Ok a ∧ f a = (w, Ok b).
Proof.
  destruct r as [a|e]; [|discriminate].
  rewrite bind_lift_Ok. eauto.
Qed.

Lemma bind_lift_Raise_inv {A B} (r : result A) (f : A → M B) w (e : exn) :
  lift r ≫= f = (w, Raise e) →
  (r = Raise e ∧ w = []) ∨ (∃ a, r = Ok a ∧ f a = (w, Raise e)).
Proof.
  destruct r as [a|e'].
  - rewrite bind_lift_Ok. eauto.
  - rewrite bind_lift_Raise. unfold raise. intros [= <- <-]. by left.
Qed.

Lemma assert_true_bind {B} (c : bool) (f : () → M B) :
  c = true → assert c ≫= f = f ().
Proof. intros ->. unfold assert, mbind, mret, M_bind, M_ret. by destruct (f ()). Qed.

Lemma assert_false_bind {B} (c : bool) (f : () → M B) :
  c = false → assert c ≫= f = raise AssertionError.
Proof. by intros ->. Qed.

(** ** What the decoders can raise *)

Lemma datetime_or_none_Raise (tz : LocalZone) (t : Z) (e : exn) :
  datetime_or_none tz t = Raise e →
  e = OverflowError ∨ e = OSError ∨ e = ValueError.
Proof.
  unfold datetime_or_none, fromtimestamp.
  repeat case_bool_decide; cbn; intros [=]; auto.
Qed.

Lemma string_or_none_Raise (b : bytes) (e : exn) :
  string_or_none b = Raise e → e = UnicodeDecodeError.
Proof.
  unfold string_or_none, decode_ascii.
  repeat case_bool_decide; cbn; intros [=]; auto.
Qed.

Lemma decode_ascii_Raise (b : bytes) (e : exn) :
  decode_ascii b = Raise e → e = UnicodeDecodeError.
Proof. unfold decode_ascii. case_bool_decide; intros [=]; auto. Qed.

(** ** The decoded header, slice by slice *)

Lemma decode_header_Ok (tz : LocalZone) (d : bytes) w hdr :
  decode_header tz d = (w, Ok hdr) ↔ decodes_to tz d w hdr.
Proof.
  split.
  - intros H.
    destruct (decide (length d < 59)%nat) as [Hd|Hd].
    { rewrite decode_header_short in H by done. discriminate. }
    rewrite decode_header_fields in H by lia. cbv zeta in H.
    case_bool_decide as Hv; [discriminate|].
    repeat (apply bind_lift_Ok_inv in H as (? & ? & H)).
    destruct (bool_decide (set_of_bytes _ ≠ _)) eqn:Hx;
      injection H as <- <-; split; cbn; auto; try lia;
      by rewrite Hx.
  - intros [Hlen Hv Hv5 Hvs Hus Hes Hlm Hdt Hcrc Hms Hhs Hbs Hel Het Hvl
             Hva Hvt Hw].
    rewrite decode_header_fields by done. cbv zeta.
    rewrite bool_decide_eq_false_2 by (intros ?; done).
    rewrite Hvs, bind_lift_Ok, Hlm, bind_lift_Ok, Hdt, bind_lift_Ok,
      Het, bind_lift_Ok, Hva, bind_lift_Ok, Hvt, bind_lift_Ok.
    subst w. destruct hdr; cbn in *; subst.
    by destruct (bool_decide _).
Qed.

Lemma bind_Ok_inv {A B} (m : M A) (f : A → M B) w (b : B) :
  m ≫= f = (w, Ok b) →
  ∃ w1 a w2, m = (w1, Ok a) ∧ f a = (w2, Ok b) ∧ w = w1 ++ w2.
Proof.
  destruct m as [w1 [a|e]]; [|discriminate].
  unfold mbind, M_bind. destruct (f a) as [w2 r] eqn:Hf.
  intros [= <- ->]. eauto 6.
Qed.

Lemma bind_Raise_inv {A B} (m : M A) (f : A → M B) w (e : exn) :
  m ≫= f = (w, Raise e) →
  m = (w, Raise e) ∨
  ∃ w1 a w2, m = (w1, Ok a) ∧ f a = (w2, Raise e) ∧ w = w1 ++ w2.
Proof.
  destruct m as [w1 [a|e']].
  - unfold mbind, M_bind. destruct (f a) as [w2 r] eqn:Hf.
    intros [= <- ->]. right. eauto 6.
  - intros [= <- <-]. by left.
Qed.

Lemma bind_Ok {A B} (m : M A) (f : A → M B) w1 a w2 r :
  m = (w1, Ok a) → f a = (w2, r) → m ≫= f = (w1 ++ w2, r).
Proof. intros -> Hf. unfold mbind, M_bind. by rewrite Hf. Qed.

Lemma decode_header_Raise (tz : LocalZone) (d : bytes) w (e : exn) :
  decode_header tz d = (w, Raise e) →
  w = [] ∧
  ((e = StructError ∧ (length d < 59)%nat) ∨
   (e = UnexpectedVersion (le_uint (slice d 0 8)) ∧ le_uint (slice d 0 8) ≠ 5
    ∧ (59 ≤ length d)%nat) ∨
   (le_uint (slice d 0 8) = 5 ∧ (59 ≤ length d)%nat ∧
    (e = OverflowError ∨ e = OSError ∨ e = ValueError
     ∨ e = UnicodeDecodeError))).
Proof.
  intros H.
  destruct (decide (length d < 59)%nat) as [Hd|Hd].
  { rewrite decode_header_short in H by done. injection H as <- <-. auto. }
  rewrite decode_header_fields in H by lia. cbv zeta in H.
  case_bool_decide as Hv.
  { injection H as <- <-. split; [done|]. right; left. split; [done|]. lia. }
  assert (Hgoal : w = [] ∧
    (e = OverflowError ∨ e = OSError ∨ e = ValueError
     ∨ e = UnicodeDecodeError));
    [|destruct Hgoal; split; [done|]; right; right; repeat split; [done|lia|done]].
  repeat match type of H with
  | lift (datetime_or_none _ _) ≫= _ = _ =>
      apply bind_lift_Raise_inv in H as [[H ->]|(? & _ & H)];
        [apply datetime_or_none_Raise in H; intuition|]
  | lift (string_or_none _) ≫= _ = _ =>
      apply bind_lift_Raise_inv in H as [[H ->]|(? & _ & H)];
        [apply string_or_none_Raise in H; intuition|]
  end.
  by destruct (bool_decide _).
Qed.

Lemma extract_regions_Raise (d : bytes) (hdr : NginxCacheHeader) w (e : exn) :
  extract_regions d hdr = (w, Raise e) →
  w = [] ∧ (e = UnicodeDecodeError ∨ e = AssertionError ∨ e = IndexError).
Proof.
  unfold extract_regions. intros H.
  apply bind_lift_Raise_inv in H as [[H ->]|(key & _ & H)];
    [apply decode_ascii_Raise in H; auto|].
  destruct (bool_decide (slice_to key 6 = KEY_PREFIX)) eqn:Hp;
    [rewrite assert_true_bind in H by done
    |rewrite assert_false_bind in H by done; injection H as <- <-; auto].
  apply bind_lift_Raise_inv in H as [[H ->]|(last & _ & H)].
  { split; [done|]. unfold item in H.
    repeat case_bool_decide; try destruct (key !! _);
      first [discriminate|injection H as <-; auto]. }
  destruct (bool_decide (last = LF)) eqn:Hl;
    [rewrite assert_true_bind in H by done
    |rewrite assert_false_bind in H by done; injection H as <- <-; auto].
  apply bind_lift_Raise_inv in H as [[H ->]|(hh & _ & H)];
    [apply decode_ascii_Raise in H; auto|].
  discriminate.
Qed.

Lemma parse_Raise (tz : LocalZone) (d : bytes) w (e : exn) :
  parse_nginx_cache_file tz d = (w, Raise e) →
  decode_header tz d = (w, Raise e) ∨
  ∃ hdr, decode_header tz d = (w, Ok hdr)
         ∧ extract_regions d hdr = ([], Raise e).
Proof.
  unfold parse_nginx_cache_file. intros H.
  apply bind_Raise_inv in H as [H|(w1 & hdr & w2 & Hd & H & ->)]; [by left|].
  right. exists hdr.
  apply bind_Raise_inv in H as [H|(? & [[? ?] ?] & ? & _ & H & _)];
    [|discriminate].
  apply extract_regions_Raise in H as H'. destruct H' as [-> _].
  by rewrite app_nil_r.
Qed.


(** ** The key text *)

Lemma key_text_join (key : str) :
  let k := KEY_PREFIX ++ key ++ [LF] in
  slice_to k 6 = KEY_PREFIX ∧ item k (-1) = Ok LF ∧ slice k 6 (-1) = key.
Proof.
  cbv zeta. split; [|split].
  - rewrite slice_to_nonneg by lia. reflexivity.
  - unfold item. rewrite (bool_decide_eq_true_2 (-1 < 0)) by lia.
    assert (Hlen : Z.of_nat (length (KEY_PREFIX ++ key ++ [LF]))
                   = Z.of_nat (length key) + 7).
    { rewrite !length_app. cbn [length KEY_PREFIX lit list_ascii_of_string]. lia. }
    rewrite bool_decide_eq_false_2 by lia.
    replace (Z.to_nat _) with (length (KEY_PREFIX ++ key)).
    2:{ rewrite Hlen, length_app. cbn [length KEY_PREFIX lit list_ascii_of_string]. lia. }
    rewrite app_assoc. rewrite list_lookup_middle by done. done.
  - unfold slice, index_pos. rewrite (bool_decide_eq_false_2 (6 < 0)) by lia.
    rewrite (bool_decide_eq_true_2 (-1 < 0)) by lia.
    change (Z.to_nat 6) with 6%nat.
    change (drop 6 (KEY_PREFIX ++ key ++ [LF])) with (key ++ [LF]).
    rewrite take_app_length'; [done|].
    rewrite !length_app. cbn [length KEY_PREFIX lit list_ascii_of_string]. lia.
Qed.

Lemma key_text_split (k : str) :
  slice_to k 6 = KEY_PREFIX → item k (-1) = Ok LF →
  k = KEY_PREFIX ++ slice k 6 (-1) ++ [LF].
Proof.
  rewrite slice_to_nonneg by lia. change (Z.to_nat 6) with 6%nat.
  intros Hp Hl.
  assert (Hlen : (6 ≤ length k)%nat).
  { apply (f_equal length) in Hp. rewrite length_take in Hp.
    change (length KEY_PREFIX) with 6%nat in Hp. lia. }
  unfold item in Hl. rewrite (bool_decide_eq_true_2 (-1 < 0)) in Hl by lia.
  rewrite bool_decide_eq_false_2 in Hl by lia.
  destruct (k !! Z.to_nat (Z.of_nat (length k) + -1)) as [c|] eqn:Hc;
    [|discriminate].
  injection Hl as ->.
  replace (Z.to_nat _) with (length k - 1)%nat in Hc by lia.
  assert (Hlen7 : (7 ≤ length k)%nat).
  { destruct (decide (length k = 6)%nat) as [H6|]; [|lia].
    rewrite take_ge in Hp by lia. subst k. discriminate. }
  unfold slice, index_pos. rewrite (bool_decide_eq_false_2 (6 < 0)) by lia.
  rewrite (bool_decide_eq_true_2 (-1 < 0)) by lia.
  change (Z.to_nat 6) with 6%nat.
  replace (Z.to_nat _) with (length k - 1)%nat by lia.
  transitivity (take 6 k ++ drop 6 k); [by rewrite take_drop|].
  rewrite Hp. f_equal.
  transitivity (take (length k - 1 - 6) (drop 6 k)
                  ++ drop (length k - 1 - 6) (drop 6 k));
    [by rewrite take_drop|].
  f_equal. rewrite drop_drop.
  replace (6 + (length k - 1 - 6))%nat with (length k - 1)%nat by lia.
  apply list_eq. intros [|i].
  - rewrite lookup_drop, Nat.add_0_r. done.
  - rewrite lookup_drop. cbn. apply lookup_ge_None. lia.
Qed.

Lemma key_text_cases (k : str) :
  (∃ key, k = KEY_PREFIX ++ key ++ [LF]) ∨ (∀ key, k ≠ KEY_PREFIX ++ key ++ [LF]).
Proof.
  destruct (decide (slice_to k 6 = KEY_PREFIX)) as [Hp|Hp].
  - destruct (item k (-1)) as [c|e] eqn:Hc.
    + destruct (decide (c = LF)) as [->|Hne].
      * left. eexists. by apply key_text_split.
      * right. intros key ->.
        destruct (key_text_join key) as (_ & Hl & _). cbv zeta in Hl. congruence.
    + right. intros key ->.
      destruct (key_text_join key) as (_ & Hl & _). cbv zeta in Hl. congruence.
  - right. intros key ->.
    destruct (key_text_join key) as (Hp' & _ & _). done.
Qed.

Lemma item_last_Ok {A} (k : list A) : k ≠ [] → ∃ c, item k (-1) = Ok c.
Proof.
  intros Hk. unfold item.
  rewrite (bool_decide_eq_true_2 (-1 < 0)) by lia.
  assert (0 < length k)%nat by (destruct k; [done|cbn; lia]).
  rewrite bool_decide_eq_false_2 by lia.
  destruct (k !! Z.to_nat (Z.of_nat (length k) + -1)) as [c|] eqn:Hc; [eauto|].
  apply lookup_ge_None in Hc. lia.
Qed.

(** ** Strict ASCII decoding *)

Lemma decode_ascii_Ok (b : bytes) (t : str) :
  decode_ascii b = Ok t ↔
  Forall (λ x, byte_val x < 128) b ∧ t = ascii_of_byte <$> b.
Proof.
  unfold decode_ascii. case_bool_decide as Hb; split.
  - by intros [= <-].
  - by intros [_ ->].
  - discriminate.
  - by intros [? _].
Qed.

Lemma decode_ascii_not_ascii (b : bytes) :
  ¬ Forall (λ x, byte_val x < 128) b → decode_ascii b = Raise UnicodeDecodeError.
Proof. intros. unfold decode_ascii. by rewrite bool_decide_eq_false_2. Qed.

(** ** Extraction, case by case *)

Lemma extract_regions_not_ascii (d : bytes) (hdr : NginxCacheHeader) :
  ¬ Forall (λ x, byte_val x < 128)
      (slice d NGINX_CACHE_HEADER_SIZE (header_start hdr)) →
  extract_regions d hdr = raise UnicodeDecodeError.
Proof.
  intros H. unfold extract_regions.
  rewrite (decode_ascii_not_ascii _ H). apply bind_lift_Raise.
Qed.

Lemma extract_regions_bad_key (d : bytes) (hdr : NginxCacheHeader) (k : str) :
  decode_ascii (slice d NGINX_CACHE_HEADER_SIZE (header_start hdr)) = Ok k →
  (∀ key, k ≠ KEY_PREFIX ++ key ++ [LF]) →
  extract_regions d hdr = raise AssertionError.
Proof.
  intros Hk Hbad. unfold extract_regions. rewrite Hk, bind_lift_Ok.
  destruct (bool_decide (slice_to k 6 = KEY_PREFIX)) eqn:Hp;
    [rewrite assert_true_bind by done|by rewrite assert_false_bind].
  apply bool_decide_eq_true in Hp.
  destruct (item_last_Ok k) as [c Hc].
  { intros ->. discriminate. }
  rewrite Hc, bind_lift_Ok.
  destruct (bool_decide (c = LF)) eqn:Hl; [|by rewrite assert_false_bind].
  apply bool_decide_eq_true in Hl. subst c.
  destruct (Hbad _ (key_text_split k Hp Hc)).
Qed.

Lemma extract_regions_key (d : bytes) (hdr : NginxCacheHeader) (key : str) :
  decode_ascii (slice d NGINX_CACHE_HEADER_SIZE (header_start hdr))
    = Ok (KEY_PREFIX ++ key ++ [LF]) →
  extract_regions d hdr =
    hh ← lift (decode_ascii (slice d (header_start hdr) (body_start hdr)));
    mret (key, hh, slice_from d (body_start hdr)).
Proof.
  intros Hk. unfold extract_regions. rewrite Hk, bind_lift_Ok.
  destruct (key_text_join key) as (Hp & Hl & Hs). cbv zeta in *.
  rewrite assert_true_bind by (by apply bool_decide_eq_true).
  rewrite Hl, bind_lift_Ok.
  rewrite assert_true_bind by (by apply bool_decide_eq_true).
  by rewrite Hs.
Qed.

Lemma extract_regions_Ok (d : bytes) (hdr : NginxCacheHeader) w key hh body :
  extract_regions d hdr = (w, Ok (key, hh, body)) ↔
  w = [] ∧
  decode_ascii (slice d NGINX_CACHE_HEADER_SIZE (header_start hdr))
    = Ok (KEY_PREFIX ++ key ++ [LF]) ∧
  decode_ascii (slice d (header_start hdr) (body_start hdr)) = Ok hh ∧
  body = slice_from d (body_start hdr).
Proof.
  split.
  - intros H.
    destruct (decode_ascii (slice d NGINX_CACHE_HEADER_SIZE (header_start hdr)))
      as [k|e] eqn:Hk.
    2:{ unfold extract_regions in H. rewrite Hk in H. discriminate. }
    destruct (key_text_cases k) as [[key' ->]|Hbad].
    + rewrite (extract_regions_key _ _ key') in H by done.
      apply bind_lift_Ok_inv in H as (hh' & Hhh & H).
      injection H as <- <- <- <-. done.
    + rewrite (extract_regions_bad_key _ _ k) in H by done. discriminate.
  - intros (-> & Hk & Hhh & ->).
    rewrite (extract_regions_key _ _ key) by done.
    by rewrite Hhh, bind_lift_Ok.
Qed.

(** ** Overwriting a range of the file *)

Lemma seek_write_splice (pos : nat) (data d : bytes) :
  (pos ≤ length d)%nat → seek_write pos data d = splice pos data d.
Proof.
  intros. unfold seek_write, splice.
  by replace (pos - length d)%nat with 0%nat by lia.
Qed.

Lemma splice_length (pos : nat) (data d : bytes) :
  (pos + length data ≤ length d)%nat → length (splice pos data d) = length d.
Proof.
  intros. unfold splice. rewrite !length_app, length_take, length_drop. lia.
Qed.

Lemma take_drop_splice_before (a n pos : nat) (data d : bytes) :
  (a + n ≤ pos)%nat → (pos ≤ length d)%nat →
  take n (drop a (splice pos data d)) = take n (drop a d).
Proof.
  intros. unfold splice. rewrite !take_drop_commute.
  rewrite take_app_le by (rewrite length_take; lia).
  rewrite take_take. by rewrite Nat.min_l by lia.
Qed.

Lemma drop_splice_after (a pos : nat) (data d : bytes) :
  (pos + length data ≤ a)%nat → (pos ≤ length d)%nat →
  drop a (splice pos data d) = drop a d.
Proof.
  intros. unfold splice.
  rewrite drop_app_ge by (rewrite length_take; lia).
  rewrite length_take, Nat.min_l by lia.
  rewrite drop_app_ge by lia. rewrite drop_drop. f_equal. lia.
Qed.

Lemma take_drop_splice_at (pos : nat) (data d : bytes) :
  (pos ≤ length d)%nat →
  take (length data) (drop pos (splice pos data d)) = data.
Proof.
  intros. unfold splice.
  rewrite drop_app_ge by (rewrite length_take; lia).
  rewrite length_take, Nat.min_l by lia.
  rewrite Nat.sub_diag, drop_0. by rewrite take_app_length.
Qed.

Lemma lookup_splice_outside (i pos : nat) (data d : bytes) :
  (pos ≤ length d)%nat → (i < pos ∨ pos + length data ≤ i)%nat →
  splice pos data d !! i = d !! i.
Proof.
  intros Hpos [Hi|Hi].
  - unfold splice. rewrite lookup_app_l by (rewrite length_take; lia).
    rewrite lookup_take. by rewrite decide_True by lia.
  - rewrite <- (Nat.add_0_r i) at 1. rewrite <- lookup_drop.
    rewrite drop_splice_after by lia. rewrite lookup_drop. f_equal. lia.
Qed.

(** A slice with literal bounds that lies outside the overwritten range is
    the slice of the original contents. *)
Lemma slice_splice_before (a b : Z) (pos : nat) (data d : bytes) :
  0 ≤ a ≤ b → b ≤ Z.of_nat pos → (pos ≤ length d)%nat →
  slice (splice pos data d) a b = slice d a b.
Proof.
  intros. rewrite !slice_nonneg by lia.
  apply take_drop_splice_before; lia.
Qed.

Lemma slice_splice_after (a b : Z) (pos : nat) (data d : bytes) :
  Z.of_nat (pos + length data) ≤ a → 0 ≤ b → (pos ≤ length d)%nat →
  slice (splice pos data d) a b = slice d a b.
Proof.
  intros. rewrite !slice_nonneg by lia.
  by rewrite drop_splice_after by lia.
Qed.

Lemma slice_splice_at (pos : nat) (data d : bytes) :
  (pos ≤ length d)%nat →
  slice (splice pos data d) (Z.of_nat pos) (Z.of_nat (pos + length data)) = data.
Proof.
  intros. rewrite slice_nonneg by lia.
  replace (Z.to_nat (Z.of_nat (pos + length data)) - Z.to_nat (Z.of_nat pos))%nat
    with (length data) by lia.
  rewrite Nat2Z.id. by apply take_drop_splice_at.
Qed.

Lemma slice_from_splice_after (a : Z) (pos : nat) (data d : bytes) :
  Z.of_nat (pos + length data) ≤ a → (pos ≤ length d)%nat →
  slice_from (splice pos data d) a = slice_from d a.
Proof.
  intros. rewrite !slice_from_nonneg by lia. apply drop_splice_after; lia.
Qed.

(** Rewrites the slices of a spliced file that avoid the spliced range. *)
Ltac frame_side :=
  rewrite ?le_bytes_length;
  repeat match goal with
  | H : length (splice _ _ _) = _ |- _ => rewrite !H
  end;
  lia.

Ltac frame_slices :=
  repeat match goal with
  | |- context [slice (splice ?pos ?data ?d) ?a ?b] =>
      first [ rewrite (slice_splice_before a b pos data d) by frame_side
            | rewrite (slice_splice_after a b pos data d) by frame_side ]
  end.

(** The key region of a file on which extraction succeeds is not empty: the
    HTTP headers start at 343 or later. *)
Lemma key_region_header_start (d : bytes) (hs : Z) (key : str) :
  0 ≤ hs →
  decode_ascii (slice d NGINX_CACHE_HEADER_SIZE hs)
    = Ok (KEY_PREFIX ++ key ++ [LF]) →
  NGINX_CACHE_HEADER_SIZE + 7 ≤ hs.
Proof.
  intros Hhs H. apply decode_ascii_Ok in H as [_ H].
  apply (f_equal length) in H. rewrite length_fmap, !length_app in H.
  change (length KEY_PREFIX) with 6%nat in H. cbn [length] in H.
  unfold NGINX_CACHE_HEADER_SIZE in *.
  rewrite slice_nonneg in H by lia.
  rewrite length_take, length_drop in H. lia.
Qed.

Lemma extract_regions_splice (pos : nat) (data d : bytes)
    (hdr : NginxCacheHeader) key hh body :
  (pos + length data ≤ 336)%nat → (pos ≤ length d)%nat →
  0 ≤ header_start hdr → 0 ≤ body_start hdr →
  extract_regions d hdr = ([], Ok (key, hh, body)) →
  extract_regions (splice pos data d) hdr
    = ([], Ok (key, hh, slice_from (splice pos data d) (body_start hdr))).
Proof.
  intros Hpos Hd Hhs0 Hbs H.
  apply extract_regions_Ok in H as (_ & Hk & Hh & ->).
  pose proof (key_region_header_start _ _ _ Hhs0 Hk) as Hhs.
  unfold NGINX_CACHE_HEADER_SIZE in *.
  apply extract_regions_Ok. unfold NGINX_CACHE_HEADER_SIZE.
  rewrite !slice_splice_after by lia. done.
Qed.

Lemma slice_splice_data (a b : Z) (pos : nat) (data d : bytes) :
  a = Z.of_nat pos → b = Z.of_nat (pos + length data) →
  (pos ≤ length d)%nat →
  slice (splice pos data d) a b = data.
Proof. intros -> -> ?. by apply slice_splice_at. Qed.

(** ** The whole parse *)

Lemma parse_Ok (tz : LocalZone) (d : bytes) w hdr key hh body :
  parse_nginx_cache_file tz d = (w, Ok (hdr, key, hh, body)) ↔
  decode_header tz d = (w, Ok hdr)
  ∧ extract_regions d hdr = ([], Ok (key, hh, body)).
Proof.
  unfold parse_nginx_cache_file. split.
  - intros H. apply bind_Ok_inv in H as (w1 & hdr' & w2 & Hd & H & ->).
    apply bind_Ok_inv in H as (w3 & [[k h] b] & w4 & He & H & ->).
    injection H as <- <- <- <- <-.
    apply extract_regions_Ok in He as He'. destruct He' as [-> _].
    by rewrite !app_nil_r.
  - intros [Hd He].
    rewrite (bind_Ok _ _ w hdr [] (Ok (hdr, key, hh, body)) Hd);
      [by rewrite app_nil_r|].
    by rewrite He.
Qed.

Lemma decodes_to_offsets_range (tz : LocalZone) (d : bytes) w hdr :
  decodes_to tz d w hdr →
  0 ≤ header_start hdr < 2 ^ 16 ∧ 0 ≤ body_start hdr < 2 ^ 16.
Proof.
  intros [Hlen _ _ _ _ _ _ _ _ _ Hhs Hbs _ _ _ _ _ _].
  rewrite Hhs, Hbs.
  pose proof (le_uint_range (slice d 54 56)) as H1.
  pose proof (le_uint_range (slice d 56 58)) as H2.
  rewrite slice_length in H1, H2 by lia.
  change (256 ^ Z.of_nat (Z.to_nat (56 - 54))) with (2 ^ 16) in H1.
  change (256 ^ Z.of_nat (Z.to_nat (58 - 56))) with (2 ^ 16) in H2.
  done.
Qed.

(** ** Frame properties of the header decoder *)

(** The stderr lines for the padding [pad]. *)
Lemma decodes_to_padding (tz : LocalZone) (d pad : bytes) w hdr :
  (336 ≤ length d)%nat → length pad = 4%nat →
  decodes_to tz d w hdr →
  decodes_to tz (splice 332 pad d)
    (if bool_decide (set_of_bytes pad ≠ {[ 0 ]})
     then [UnexpectedNonZeroBytes pad] else [])
    hdr.
Proof.
  intros Hd Hpad [].
  assert (Hlen : length (splice 332 pad d) = length d)
    by (apply splice_length; lia).
  split; rewrite ?Hlen; frame_slices; try done.
  by rewrite (slice_splice_data 332 336 332 pad d) by lia.
Qed.

Lemma decodes_to_valid_sec (tz : LocalZone) (d : bytes) (t : Z) v w hdr :
  0 ≤ t < 2 ^ 64 → datetime_or_none tz t = Ok v →
  decodes_to tz d w hdr →
  decodes_to tz (splice 8 (le_bytes 8 t) d) w (set_valid_sec v hdr).
Proof.
  intros Ht Hv [].
  assert (Hlen : length (splice 8 (le_bytes 8 t) d) = length d)
    by (apply splice_length; rewrite le_bytes_length; lia).
  split; rewrite ?Hlen; cbn [set_valid_sec version valid_sec updating_sec
    error_sec last_modified date crc32 valid_msec header_start body_start
    etag_len etag vary_len vary variant]; frame_slices; try done.
  rewrite (slice_splice_data 8 16 8) by (rewrite ?le_bytes_length; lia).
  by rewrite le_uint_le_bytes_id by (cbn; lia).
Qed.

Lemma decodes_to_offsets (tz : LocalZone) (d : bytes) (hs bs : Z) w hdr :
  0 ≤ hs < 2 ^ 16 → 0 ≤ bs < 2 ^ 16 →
  decodes_to tz d w hdr →
  decodes_to tz (splice 54 (le_bytes 2 hs) (splice 56 (le_bytes 2 bs) d)) w
    (set_offsets hs bs hdr).
Proof.
  intros Hhs Hbs [].
  assert (Hlen1 : length (splice 56 (le_bytes 2 bs) d) = length d)
    by (apply splice_length; rewrite le_bytes_length; lia).
  assert (Hlen : length (splice 54 (le_bytes 2 hs)
                           (splice 56 (le_bytes 2 bs) d)) = length d)
    by (rewrite splice_length; rewrite ?le_bytes_length; lia).
  split; rewrite ?Hlen; cbn [set_offsets version valid_sec updating_sec
    error_sec last_modified date crc32 valid_msec header_start body_start
    etag_len etag vary_len vary variant]; frame_slices; try done.
  - rewrite (slice_splice_data 54 56 54) by frame_side.
    by rewrite le_uint_le_bytes_id by (cbn; lia).
  - rewrite (slice_splice_data 56 58 56) by frame_side.
    by rewrite le_uint_le_bytes_id by (cbn; lia).
Qed.

(** Extraction reads the two offsets of the header and nothing else. *)
Lemma extract_regions_set_valid_sec (d : bytes) v (hdr : NginxCacheHeader) :
  extract_regions d (set_valid_sec v hdr) = extract_regions d hdr.
Proof. reflexivity. Qed.

(** ** Slices with swapped or out-of-range bounds *)

Lemma slice_swapped {A} (l : list A) (i j : Z) :
  0 ≤ j ≤ i → slice l i j = [].
Proof.
  intros. rewrite slice_nonneg by lia.
  by replace (Z.to_nat j - Z.to_nat i)%nat with 0%nat by lia.
Qed.

Lemma slice_from_past_end {A} (l : list A) (i : Z) :
  Z.of_nat (length l) ≤ i → slice_from l i = [].
Proof. intros. rewrite slice_from_nonneg by lia. apply drop_ge. lia. Qed.

Lemma slice_past_end {A} (l : list A) (i j : Z) :
  0 ≤ i → Z.of_nat (length l) ≤ j → slice l i j = slice_from l i.
Proof.
  intros. rewrite slice_nonneg, slice_from_nonneg by lia.
  apply take_ge. rewrite length_drop. lia.
Qed.

(** ** The expiry patch *)

Lemma set_expire_Ok (tz : LocalZone) (d : bytes) (expiredt : datetime) :
  0 ≤ mktime tz (dt_wall expiredt) ≤ time_t_max →
  set_expire_nginx_cache_file tz d expiredt
    = (seek_write 8 (le_bytes 8 (mktime tz (dt_wall expiredt))) d, Ok ()).
Proof.
  intros Ht. unfold set_expire_nginx_cache_file, mktime_timetuple, pack_Q.
  unfold time_t_min, time_t_max in *.
  rewrite bool_decide_eq_true_2 by lia.
  by rewrite bool_decide_eq_true_2 by lia.
Qed.

(** On every decoded header vary_len is 5: it is the first byte of the file,
    the low byte of the version. *)
Lemma vary_len_is_version (tz : LocalZone) (d : bytes) w hdr :
  decode_header tz d = (w, Ok hdr) → vary_len hdr = 5.
Proof.
  intros H. apply decode_header_Ok in H as [Hlen _ Hv5 _ _ _ _ _ _ _ _ _ _ _ Hvl _ _ _].
  rewrite Hvl. revert Hv5. literal_slices. rewrite !drop_0.
  destruct d as [|x d]; [cbn in Hlen; lia|].
  cbn [take le_uint]. rewrite take_0. cbn [le_uint].
  pose proof (byte_val_range x). pose proof (le_uint_nonneg (take 7 d)).
  lia.
Qed.

(** A failure of the header decoder does not depend on the padding. *)
Lemma decode_header_Raise_padding (tz : LocalZone) (d pad : bytes) w e :
  (336 ≤ length d)%nat → length pad = 4%nat →
  decode_header tz d = (w, Raise e) →
  decode_header tz (splice 332 pad d) = (w, Raise e).
Proof.
  intros Hd Hpad H.
  assert (Hlen : length (splice 332 pad d) = length d)
    by (apply splice_length; lia).
  rewrite decode_header_fields in H |- * by lia. cbv zeta in H |- *.
  frame_slices.
  destruct (bool_decide (le_uint (slice d 0 8) ≠ 5)); [exact H|].
  repeat match goal with
  | |- lift ?r ≫= _ = _ =>
      destruct r; [rewrite bind_lift_Ok in H |- *|exact H]
  end.
  exfalso. by destruct (bool_decide _).
Qed.

Lemma padding_warning_cases (pad : bytes) :
  length pad = 4%nat →
  bool_decide (set_of_bytes pad ≠ {[ 0 ]})
    = negb (bool_decide (Forall (λ x, x = x00) pad)).
Proof.
  intros Hpad.
  assert (pad ≠ []) by (intros ->; discriminate).
  pose proof (set_of_bytes_zero pad) as Hz.
  repeat case_bool_decide; try done; tauto.
Qed.
(** * The claims *)

(** ** C1: the version check *)

(** C1. For every file whose header buffer has its 336 bytes, parsing fails
    with the unexpected-version exception if and only if the little-endian
    64-bit integer in bytes 0..7 differs from 5; when it differs the
    exception carries that integer and nothing is printed, and when it is 5
    the version check is passed (whatever happens later is not that
    exception). *)
Theorem C1_unsupported_version (tz : LocalZone) (d : bytes) :
  (336 ≤ length d)%nat →
  ((∃ w v, parse_nginx_cache_file tz d = (w, Raise (UnexpectedVersion v)))
     ↔ le_uint (slice d 0 8) ≠ 5)
  ∧ (le_uint (slice d 0 8) ≠ 5 →
     parse_nginx_cache_file tz d
       = ([], Raise (UnexpectedVersion (le_uint (slice d 0 8))))).
Proof.
  intros Hd.
  assert (Hfail : le_uint (slice d 0 8) ≠ 5 →
    parse_nginx_cache_file tz d
      = ([], Raise (UnexpectedVersion (le_uint (slice d 0 8))))).
  { intros Hv. unfold parse_nginx_cache_file.
    rewrite decode_header_fields by lia. cbv zeta.
    by rewrite bool_decide_eq_true_2 by done. }
  split; [|done]. split; [|eauto].
  intros (w & v & H) Hv.
  apply parse_Raise in H as [H|(hdr & _ & H)].
  - apply decode_header_Raise
      in H as (_ & [[? _]|[(_ & ? & _)|(_ & _ & [?|[?|[?|?]]])]]);
      done || discriminate.
  - apply extract_regions_Raise in H as (_ & [?|[?|?]]); discriminate.
Qed.

Lemma C1_unsupported_version_witness :
  ((∃ w v, parse_nginx_cache_file utc version_4_file
             = (w, Raise (UnexpectedVersion v)))
     ↔ le_uint (slice version_4_file 0 8) ≠ 5)
  ∧ (le_uint (slice version_4_file 0 8) ≠ 5 →
     parse_nginx_cache_file utc version_4_file
       = ([], Raise (UnexpectedVersion (le_uint (slice version_4_file 0 8))))).
Proof.
  apply (C1_unsupported_version utc version_4_file).
  vm_compute. lia.
Defined.

(** ** C2: the optional text fields *)

(** C2, against the claim as stated: the etag buffer of [etag_file] holds
    [abc] and 125 zero bytes, so it has a non-zero byte and its text without
    the trailing zero bytes is [abc]; the decoded etag is the 128-character
    text of the whole buffer. *)
Lemma C2_counterexample :
  strip_trailing_zeros (slice etag_file 59 187) = ascii_bytes "abc"
  ∧ etag <$> (decode_header utc etag_file).2
      = Ok (Some (lit "abc" ++ replicate 125 (ascii_of_byte x00)))
  ∧ etag <$> (decode_header utc etag_file).2 ≠ Ok (Some (lit "abc")).
Proof. vm_compute. repeat split; discriminate. Qed.

(** C2, as amended. [string_or_none] maps a non-empty all-zero buffer to
    the absent value, any other buffer of ASCII bytes to the text of the
    whole buffer, with its zero bytes (as long as the buffer: nothing is
    stripped), and fails on a byte above 127; and on every decoded header
    the etag, vary and variant fields are [string_or_none] of the buffers
    at 59..187, 188..316 and 316..332. *)
Theorem C2_optional_text (tz : LocalZone) (d : bytes) w hdr (b : bytes) :
  decode_header tz d = (w, Ok hdr) →
  string_or_none b =
    (if bool_decide (b ≠ [] ∧ Forall (λ x, x = x00) b) then Ok None
     else if bool_decide (Forall (λ x, byte_val x < 128) b)
          then Ok (Some (ascii_of_byte <$> b))
          else Raise UnicodeDecodeError)
  ∧ length (ascii_of_byte <$> b) = length b
  ∧ string_or_none (slice d 59 187) = Ok (etag hdr)
  ∧ string_or_none (slice d 188 316) = Ok (vary hdr)
  ∧ string_or_none (slice d 316 332) = Ok (variant hdr).
Proof.
  intros H. apply decode_header_Ok in H as [].
  repeat split; try done; [|by rewrite length_fmap].
  unfold string_or_none, decode_ascii.
  destruct (bool_decide (set_of_bytes b = {[0]})) eqn:Hz.
  - apply bool_decide_eq_true, set_of_bytes_zero in Hz.
    by rewrite bool_decide_eq_true_2.
  - apply bool_decide_eq_false in Hz. rewrite set_of_bytes_zero in Hz.
    rewrite (bool_decide_eq_false_2 (b ≠ [] ∧ _)) by done.
    by destruct (bool_decide (Forall _ b)).
Qed.

Lemma C2_optional_text_witness :
  string_or_none (slice etag_file 59 187)
    = Ok (Some (ascii_of_byte <$> slice etag_file 59 187))
  ∧ length (ascii_of_byte <$> slice etag_file 59 187) = 128%nat
  ∧ string_or_none (slice etag_file 188 316) = Ok None.
Proof.
  destruct (C2_optional_text utc etag_file []
              (sample_header 349 386
                 (Some (lit "abc" ++ replicate 125 (ascii_of_byte x00))))
              (slice etag_file 59 187)) as (H1 & H2 & _ & H4 & _).
  { vm_compute. reflexivity. }
  split; [|split].
  - rewrite H1. vm_compute. reflexivity.
  - rewrite H2. vm_compute. reflexivity.
  - exact H4.
Defined.

(** ** C3: the optional instants *)

(** C3, against the claim as stated: the expiry of [far_future_file] is
    [2^64 - 2], which is not the sentinel, and decoding fails instead of
    yielding an instant. *)
Lemma C3_counterexample :
  le_uint (slice far_future_file 8 16) = 2 ^ 64 - 2
  ∧ datetime_or_none utc (2 ^ 64 - 2) = Raise OverflowError
  ∧ decode_header utc far_future_file = ([], Raise OverflowError).
Proof. vm_compute. done. Qed.

(** C3, as amended. [datetime_or_none] maps [2^64 - 1] to the absent
    value, every other value that fits [time_t] and whose local time lies
    in the years 1..9999 to that local time, and fails on the remaining
    values (with OverflowError outside [time_t], OSError where the C
    [localtime] fails and ValueError for the other years); on every
    decoded header valid_sec, last_modified and date are
    [datetime_or_none] of the integers at 8..16, 32..40 and 40..48, while
    updating_sec and error_sec are the integers at 16..24 and 24..32
    themselves. *)
Theorem C3_optional_instants (tz : LocalZone) (d : bytes) w hdr (t : Z) :
  decode_header tz d = (w, Ok hdr) →
  datetime_or_none tz t =
    (if bool_decide (t = 2 ^ 64 - 1) then Ok None
     else if bool_decide (time_t_min ≤ t ≤ time_t_max) then
       if bool_decide (datetime_min ≤ localtime tz t ≤ datetime_max)
       then Ok (Some (mk_datetime (localtime tz t) 0))
       else if bool_decide (tm_min ≤ localtime tz t ≤ tm_max)
            then Raise ValueError
            else Raise OSError
     else Raise OverflowError)
  ∧ datetime_or_none tz (le_uint (slice d 8 16)) = Ok (valid_sec hdr)
  ∧ datetime_or_none tz (le_uint (slice d 32 40)) = Ok (last_modified hdr)
  ∧ datetime_or_none tz (le_uint (slice d 40 48)) = Ok (date hdr)
  ∧ updating_sec hdr = le_uint (slice d 16 24)
  ∧ error_sec hdr = le_uint (slice d 24 32).
Proof.
  intros H. apply decode_header_Ok in H as [].
  repeat split; try done.
  unfold datetime_or_none, fromtimestamp.
  destruct (bool_decide (t = _)); [done|].
  destruct (bool_decide (time_t_min ≤ t ≤ _)); [|done].
  cbv zeta. unfold datetime_min, datetime_max, tm_min, tm_max.
  repeat case_bool_decide; try done; lia.
Qed.

Lemma C3_optional_instants_witness :
  datetime_or_none utc 1700000000 = Ok (Some (mk_datetime 1700000000 0))
  ∧ datetime_or_none utc (le_uint (slice sample_file 32 40)) = Ok None
  ∧ updating_sec (sample_header 349 386 None)
      = le_uint (slice sample_file 16 24).
Proof.
  destruct (C3_optional_instants utc sample_file [] (sample_header 349 386 None)
              1700000000) as (H1 & _ & H3 & _ & H5 & _).
  { vm_compute. reflexivity. }
  split; [|split].
  - rewrite H1. vm_compute. reflexivity.
  - exact H3.
  - exact H5.
Defined.

(** ** C4: vary_len *)

(** C4, on [sample_file]: the byte at offset 187 is 7, and the decoded
    vary_len is 5, the byte at offset 0. *)
Theorem C4_vary_len_sample :
  item sample_file 187 = Ok x07
  ∧ item sample_file 0 = Ok x05
  ∧ vary_len <$> (decode_header utc sample_file).2 = Ok 5.
Proof. vm_compute. done. Qed.

(** ** C5: the order of the offsets *)

(** C5, against the claim as stated: in [swapped_offsets_file] the HTTP
    headers start at 349 and the body at 340, and parsing succeeds, with no
    HTTP header text and the file from offset 340 on as the body. *)
Lemma C5_counterexample :
  parse_nginx_cache_file utc swapped_offsets_file
    = ([], Ok (sample_header 349 340 None, lit "abc123", [],
               slice_from swapped_offsets_file 340))
  ∧ header_start (sample_header 349 340 None)
      > body_start (sample_header 349 340 None).
Proof. vm_compute. done. Qed.

(** C5, as amended. The two offsets are never compared. A file whose
    header decodes still decodes, to the same header but for the offsets,
    when its two offset fields are overwritten by any two 16-bit values, in
    order or not; and on every file whose header decodes with
    [header_start] above [body_start] and whose key region is well formed,
    parsing succeeds, the HTTP header text is empty and the body is the file
    from [body_start] on. *)
Theorem C5_offsets_not_compared (tz : LocalZone) (d : bytes) w hdr key :
  decode_header tz d = (w, Ok hdr) →
  (∀ hs bs, 0 ≤ hs < 2 ^ 16 → 0 ≤ bs < 2 ^ 16 →
     decode_header tz (splice 54 (le_bytes 2 hs) (splice 56 (le_bytes 2 bs) d))
       = (w, Ok (set_offsets hs bs hdr)))
  ∧ (body_start hdr < header_start hdr →
     decode_ascii (slice d NGINX_CACHE_HEADER_SIZE (header_start hdr))
       = Ok (KEY_PREFIX ++ key ++ [LF]) →
     parse_nginx_cache_file tz d
       = (w, Ok (hdr, key, [], slice_from d (body_start hdr)))).
Proof.
  intros Hd. split.
  - intros hs bs Hhs Hbs.
    apply decode_header_Ok, decodes_to_offsets; [done..|].
    by apply decode_header_Ok.
  - intros Hlt Hk. apply parse_Ok. split; [done|].
    apply decode_header_Ok, decodes_to_offsets_range in Hd.
    apply extract_regions_Ok. repeat split; try done.
    by rewrite slice_swapped by lia.
Qed.

Lemma C5_offsets_not_compared_witness :
  decode_header utc
      (splice 54 (le_bytes 2 349) (splice 56 (le_bytes 2 340) sample_file))
    = ([], Ok (sample_header 349 340 None))
  ∧ parse_nginx_cache_file utc swapped_offsets_file
    = ([], Ok (sample_header 349 340 None, lit "abc123", [],
               slice_from swapped_offsets_file
                 (body_start (sample_header 349 340 None)))).
Proof.
  split.
  - destruct (C5_offsets_not_compared utc sample_file []
                (sample_header 349 386 None) []) as [H _].
    { vm_compute. reflexivity. }
    apply (H 349 340); lia.
  - destruct (C5_offsets_not_compared utc swapped_offsets_file []
                (sample_header 349 340 None) (lit "abc123")) as [_ H].
    { vm_compute. reflexivity. }
    apply H; vm_compute; reflexivity.
Defined.

(** ** C6: offsets past the end of the file *)

(** C6, against the claim as stated: [short_file] has 391 bytes and
    declares its body at offset 1000; parsing succeeds, with the rest of
    the file as HTTP header text and an empty body. *)
Lemma C6_counterexample :
  length short_file = 391%nat
  ∧ parse_nginx_cache_file utc short_file
      = ([], Ok (sample_header 349 1000 None, lit "abc123",
                 ascii_of_byte <$> slice_from short_file 349, [])).
Proof. vm_compute. done. Qed.

(** C6, as amended. Slices are clamped to the file: on every file whose
    header decodes with [body_start] past the end of the file, whose key
    region (up to [header_start] or the end of the file) is well formed and
    whose bytes from [header_start] on are ASCII, parsing succeeds, the HTTP
    header text is the file from [header_start] on and the body is empty. *)
Theorem C6_offsets_clamped (tz : LocalZone) (d : bytes) w hdr key hh :
  decode_header tz d = (w, Ok hdr) →
  Z.of_nat (length d) < body_start hdr →
  decode_ascii (slice d NGINX_CACHE_HEADER_SIZE (header_start hdr))
    = Ok (KEY_PREFIX ++ key ++ [LF]) →
  decode_ascii (slice_from d (header_start hdr)) = Ok hh →
  parse_nginx_cache_file tz d = (w, Ok (hdr, key, hh, [])).
Proof.
  intros Hd Hlt Hk Hh. apply parse_Ok. split; [done|].
  apply decode_header_Ok, decodes_to_offsets_range in Hd.
  apply extract_regions_Ok. repeat split; try done.
  - by rewrite slice_past_end by lia.
  - by rewrite slice_from_past_end by lia.
Qed.

Lemma C6_offsets_clamped_witness :
  parse_nginx_cache_file utc short_file
    = ([], Ok (sample_header 349 1000 None, lit "abc123",
               ascii_of_byte <$> slice_from short_file 349, [])).
Proof.
  apply (C6_offsets_clamped utc short_file [] (sample_header 349 1000 None)
           (lit "abc123") (ascii_of_byte <$> slice_from short_file 349)).
  - vm_compute. reflexivity.
  - vm_compute. reflexivity.
  - vm_compute. reflexivity.
  - vm_compute. reflexivity.
Defined.

(** ** C7: the key region *)

(** C7, against the claim as stated: the key region of [binary_key_file]
    starts with the byte 255, so it is not ASCII text, and extraction fails
    with UnicodeDecodeError, the exception of a text region that is not
    ASCII, and not with the AssertionError of the delimiter checks. *)
Lemma C7_counterexample :
  item binary_key_file 336 = Ok xff
  ∧ extract_regions binary_key_file (sample_header 349 386 None)
      = ([], Raise UnicodeDecodeError)
  ∧ parse_nginx_cache_file utc binary_key_file
      = ([], Raise UnicodeDecodeError).
Proof. vm_compute. done. Qed.

(** C7, as amended. The key region is the slice from 336 to
    [header_start]. Extraction fails with UnicodeDecodeError when the region
    is not ASCII, and with AssertionError when it is ASCII text that does
    not begin with [\nKEY: ] or does not end with [\n]; when the text is
    [\nKEY: ], a key and [\n], the extracted key is exactly that key, the
    HTTP header text is decoded next and the body is the rest. *)
Theorem C7_key_region (d : bytes) (hdr : NginxCacheHeader) (k key : str) :
  let region := slice d NGINX_CACHE_HEADER_SIZE (header_start hdr) in
  (¬ Forall (λ x, byte_val x < 128) region →
   extract_regions d hdr = ([], Raise UnicodeDecodeError))
  ∧ (decode_ascii region = Ok k → (∀ key', k ≠ KEY_PREFIX ++ key' ++ [LF]) →
     extract_regions d hdr = ([], Raise AssertionError))
  ∧ (decode_ascii region = Ok (KEY_PREFIX ++ key ++ [LF]) →
     extract_regions d hdr =
       hh ← lift (decode_ascii
                    (slice d (header_start hdr) (body_start hdr)));
       mret (key, hh, slice_from d (body_start hdr))).
Proof.
  cbv zeta. split; [|split].
  - apply extract_regions_not_ascii.
  - apply extract_regions_bad_key.
  - apply extract_regions_key.
Qed.

Lemma C7_key_region_witness :
  extract_regions binary_key_file (sample_header 349 386 None)
    = ([], Raise UnicodeDecodeError)
  ∧ extract_regions sample_file (sample_header 349 386 None)
    = ([], Ok (lit "abc123", sample_http_header, ascii_bytes "hello")).
Proof.
  split.
  - apply (C7_key_region binary_key_file (sample_header 349 386 None) [] []).
    vm_compute. rewrite Forall_cons. intros [H _]. revert H. vm_compute. done.
  - destruct (C7_key_region sample_file (sample_header 349 386 None) []
                (lit "abc123")) as (_ & _ & H).
    rewrite H; vm_compute; reflexivity.
Defined.

(** ** C8: the expiry patch *)

(** C8, against the claim as stated: [sample_file] has more than 16 bytes;
    for the instant one second before the epoch the patch raises
    [struct.error] and writes nothing. *)
Lemma C8_counterexample :
  (16 ≤ length sample_file)%nat
  ∧ set_expire_nginx_cache_file utc sample_file (mk_datetime (-1) 0)
      = (sample_file, Raise StructError).
Proof. split; [vm_compute; lia|reflexivity]. Qed.

(** C8, as amended. For every file of at least 16 bytes and every instant
    whose seconds since the epoch are not negative, the patch succeeds,
    keeps the length of the file, writes the eight little-endian bytes of
    those seconds at offset 8 and leaves every other byte as it was. If the
    file parsed before the patch and the instant is one that the local zone
    maps back to itself, the file parses after the patch to the same header
    with valid_sec replaced by the instant without its microseconds, the
    same key and the same HTTP header text; the body is the same when it
    starts at offset 16 or later. *)
Theorem C8_patch_expiry (tz : LocalZone) (d : bytes) (expiredt : datetime) :
  (16 ≤ length d)%nat →
  0 ≤ mktime tz (dt_wall expiredt) ≤ time_t_max →
  let t := mktime tz (dt_wall expiredt) in
  let d' := (set_expire_nginx_cache_file tz d expiredt).1 in
  (set_expire_nginx_cache_file tz d expiredt).2 = Ok ()
  ∧ length d' = length d
  ∧ slice d' 8 16 = le_bytes 8 t
  ∧ (∀ i, (i < 8 ∨ 16 ≤ i)%nat → d' !! i = d !! i)
  ∧ (∀ w hdr key hh body,
       parse_nginx_cache_file tz d = (w, Ok (hdr, key, hh, body)) →
       localtime tz t = dt_wall expiredt →
       datetime_min ≤ dt_wall expiredt ≤ datetime_max →
       parse_nginx_cache_file tz d'
         = (w, Ok (set_valid_sec (Some (mk_datetime (dt_wall expiredt) 0)) hdr,
                   key, hh, slice_from d' (body_start hdr)))
       ∧ (16 ≤ body_start hdr → slice_from d' (body_start hdr) = body)).
Proof.
  intros Hd Ht. cbv zeta.
  rewrite set_expire_Ok by done. cbn [fst snd].
  rewrite seek_write_splice by lia.
  set (t := mktime tz (dt_wall expiredt)) in *.
  assert (Hlen : length (splice 8 (le_bytes 8 t) d) = length d)
    by (apply splice_length; rewrite le_bytes_length; lia).
  split; [done|]. split; [done|]. split.
  { apply slice_splice_data; rewrite ?le_bytes_length; lia. }
  split.
  { intros i Hi. apply lookup_splice_outside; rewrite ?le_bytes_length; lia. }
  intros w hdr key hh body Hp Hrt Hrange.
  apply parse_Ok in Hp as [Hdec Hext].
  apply decode_header_Ok in Hdec.
  pose proof (decodes_to_offsets_range _ _ _ _ Hdec) as [Hhs Hbs].
  split.
  - apply parse_Ok. split.
    + apply decode_header_Ok, decodes_to_valid_sec; [|  |done].
      * unfold time_t_max in Ht. lia.
      * unfold datetime_or_none, fromtimestamp.
        unfold time_t_min, time_t_max in *.
        rewrite bool_decide_eq_false_2 by lia.
        rewrite bool_decide_eq_true_2 by lia.
        cbv zeta. rewrite Hrt.
        unfold datetime_min, datetime_max, tm_min, tm_max in *.
        rewrite bool_decide_eq_true_2 by lia.
        by rewrite bool_decide_eq_true_2 by lia.
    + rewrite extract_regions_set_valid_sec.
      apply (extract_regions_splice 8 _ d _ key hh body);
        rewrite ?le_bytes_length; cbn; try lia. done.
  - intros Hb. apply extract_regions_Ok in Hext as (_ & _ & _ & ->).
    apply slice_from_splice_after; rewrite ?le_bytes_length; lia.
Qed.

Lemma C8_patch_expiry_witness :
  let d' := (set_expire_nginx_cache_file utc sample_file
               (mk_datetime 1800000000 250000)).1 in
  length d' = length sample_file
  ∧ slice d' 8 16 = le_bytes 8 1800000000
  ∧ parse_nginx_cache_file utc d'
      = ([], Ok (set_valid_sec (Some (mk_datetime 1800000000 0))
                   (sample_header 349 386 None),
                 lit "abc123", sample_http_header, ascii_bytes "hello")).
Proof.
  destruct (C8_patch_expiry utc sample_file (mk_datetime 1800000000 250000))
    as (_ & H2 & H3 & _ & H5).
  { vm_compute. lia. }
  { vm_compute. split; discriminate. }
  cbv zeta in *.
  split; [exact H2|]. split; [exact H3|].
  destruct (H5 [] (sample_header 349 386 None) (lit "abc123")
              sample_http_header (ascii_bytes "hello")) as [H6 H7].
  { vm_compute. reflexivity. }
  { reflexivity. }
  { vm_compute. split; discriminate. }
  rewrite H6, H7; [reflexivity|]. vm_compute. discriminate.
Defined.

(** ** C9: the patch does not look at the header *)

(** C9, against the claim as stated: [version_4_file] has more than 16
    bytes and is a file that the parse rejects for its version; for the
    instant one second before the epoch the patch of it does not succeed:
    it raises [struct.error] and the file is as it was. *)
Lemma C9_counterexample :
  (16 ≤ length version_4_file)%nat
  ∧ (parse_nginx_cache_file utc version_4_file).2
      = Raise (UnexpectedVersion 4)
  ∧ set_expire_nginx_cache_file utc version_4_file (mk_datetime (-1) 0)
      = (version_4_file, Raise StructError).
Proof. split; [vm_compute; lia|split; reflexivity]. Qed.

(** C9, as amended. The patch never reads the file: for every file of at
    least 16 bytes, whatever its version and whether or not it parses, how
    the patch ends is how it ends on any other file, and it succeeds exactly
    when the seconds of the instant since the epoch are not negative and fit
    [time_t]. When it succeeds the file keeps its length, holds the eight
    little-endian bytes of those seconds at offsets 8..15 and every other
    byte as it was; when it fails the file is as it was. *)
Theorem C9_patch_without_validation (tz : LocalZone) (d d' : bytes)
    (expiredt : datetime) :
  (16 ≤ length d)%nat →
  let t := mktime tz (dt_wall expiredt) in
  let patched := set_expire_nginx_cache_file tz d expiredt in
  patched.2 = (set_expire_nginx_cache_file tz d' expiredt).2
  ∧ (patched.2 = Ok () ↔ 0 ≤ t ≤ time_t_max)
  ∧ (patched.2 = Ok () →
     length patched.1 = length d
     ∧ slice patched.1 8 16 = le_bytes 8 t
     ∧ ∀ i, (i < 8 ∨ 16 ≤ i)%nat → patched.1 !! i = d !! i)
  ∧ (patched.2 ≠ Ok () → patched.1 = d).
Proof.
  intros Hd. cbv zeta.
  assert (Hlen : ∀ v, length (splice 8 (le_bytes 8 v) d) = length d)
    by (intros v; apply splice_length; rewrite le_bytes_length; lia).
  unfold set_expire_nginx_cache_file, mktime_timetuple, pack_Q.
  unfold time_t_min, time_t_max.
  set (t := mktime tz (dt_wall expiredt)).
  destruct (decide (- 2 ^ 63 ≤ t ≤ 2 ^ 63 - 1)) as [Hr|Hr].
  - rewrite !(bool_decide_eq_true_2 (- 2 ^ 63 ≤ t ≤ 2 ^ 63 - 1)) by done.
    destruct (decide (0 ≤ t)) as [H0|H0].
    + rewrite !(bool_decide_eq_true_2 (0 ≤ t < 2 ^ 64)) by lia.
      cbn [fst snd]. rewrite seek_write_splice by lia.
      split; [reflexivity|].
      split; [split; [lia|reflexivity]|].
      split; [|intros H; by destruct H].
      intros _. split; [apply Hlen|].
      split.
      * apply slice_splice_data; rewrite ?le_bytes_length; lia.
      * intros i Hi. apply lookup_splice_outside;
          rewrite ?le_bytes_length; lia.
    + rewrite !(bool_decide_eq_false_2 (0 ≤ t < 2 ^ 64)) by lia.
      cbn [fst snd].
      split; [reflexivity|].
      split; [split; [discriminate|lia]|].
      split; [discriminate|reflexivity].
  - rewrite !(bool_decide_eq_false_2 (- 2 ^ 63 ≤ t ≤ 2 ^ 63 - 1)) by done.
    cbn [fst snd].
    split; [reflexivity|].
    split; [split; [discriminate|lia]|].
    split; [discriminate|reflexivity].
Qed.

Lemma C9_patch_without_validation_witness :
  let patched :=
    set_expire_nginx_cache_file utc version_4_file
      (mk_datetime 1800000000 250000) in
  (parse_nginx_cache_file utc version_4_file).2 = Raise (UnexpectedVersion 4)
  ∧ patched.2 = Ok ()
  ∧ length patched.1 = length version_4_file
  ∧ slice patched.1 8 16 = le_bytes 8 1800000000
  ∧ (∀ i, (i < 8 ∨ 16 ≤ i)%nat → patched.1 !! i = version_4_file !! i).
Proof.
  cbv zeta.
  destruct (C9_patch_without_validation utc version_4_file []
              (mk_datetime 1800000000 250000)) as (_ & H2 & H3 & _).
  { vm_compute. lia. }
  cbv zeta in H2, H3.
  assert (Hok : (set_expire_nginx_cache_file utc version_4_file
                   (mk_datetime 1800000000 250000)).2 = Ok ()).
  { apply H2. vm_compute. split; discriminate. }
  split; [vm_compute; reflexivity|]. split; [exact Hok|].
  exact (H3 Hok).
Defined.

(** ** C10: the padding *)

(** C10. For every file whose header buffer has its 336 bytes, replacing
    the four bytes at 332..335 by any four bytes [pad] leaves the outcome
    of the header decoder as it was, the same header or the same exception;
    when a header is returned, one line is printed on stderr if some byte
    of [pad] is not zero, and nothing is printed if they are all zero.  The
    whole parse succeeds as it did before, with the same header, key and
    HTTP header text. *)
Theorem C10_padding_warning (tz : LocalZone) (d pad : bytes) :
  (336 ≤ length d)%nat → length pad = 4%nat →
  let d' := splice 332 pad d in
  let printed :=
    if bool_decide (Forall (λ x, x = x00) pad) then []
    else [UnexpectedNonZeroBytes pad] in
  decode_header tz d' =
    match decode_header tz d with
    | (_, Ok hdr) => (printed, Ok hdr)
    | (w, Raise e) => (w, Raise e)
    end
  ∧ (∀ w hdr key hh body,
       parse_nginx_cache_file tz d = (w, Ok (hdr, key, hh, body)) →
       parse_nginx_cache_file tz d'
         = (printed, Ok (hdr, key, hh, slice_from d' (body_start hdr)))).
Proof.
  intros Hd Hpad. cbv zeta.
  assert (Hok : ∀ w hdr, decode_header tz d = (w, Ok hdr) →
    decode_header tz (splice 332 pad d)
      = (if bool_decide (Forall (λ x, x = x00) pad) then []
         else [UnexpectedNonZeroBytes pad], Ok hdr)).
  { intros w hdr H. apply decode_header_Ok in H. apply decode_header_Ok.
    pose proof (decodes_to_padding tz d pad w hdr Hd Hpad H) as H'.
    rewrite padding_warning_cases in H' by done.
    by destruct (bool_decide (Forall _ pad)). }
  split.
  - destruct (decode_header tz d) as [w [hdr|e]] eqn:H; [by eapply Hok|].
    by apply decode_header_Raise_padding.
  - intros w hdr key hh body Hp.
    apply parse_Ok in Hp as [Hdec Hext]. apply parse_Ok. split; [by eapply Hok|].
    apply decode_header_Ok, decodes_to_offsets_range in Hdec as [? ?].
    apply (extract_regions_splice 332 pad d hdr key hh body); try lia. done.
Qed.

Lemma C10_padding_warning_witness :
  decode_header utc padded_file
    = ([UnexpectedNonZeroBytes [x00; x01; x00; x00]],
       Ok (sample_header 349 386 None)).
Proof.
  change padded_file with (splice 332 [x00; x01; x00; x00] sample_file).
  destruct (C10_padding_warning utc sample_file [x00; x01; x00; x00])
    as [H _].
  - vm_compute. lia.
  - reflexivity.
  - cbv zeta in H. rewrite H. vm_compute. reflexivity.
Defined.

(** * Further properties of the parser *)

(** ** Short files *)

(** X1. A file of fewer than 59 bytes, the empty file included, cannot
    hold the fixed fields: parsing raises [struct.error] and prints
    nothing. *)
Theorem X1_short_file (tz : LocalZone) (d : bytes) :
  (length d < 59)%nat →
  parse_nginx_cache_file tz d = ([], Raise StructError).
Proof.
  intros Hd. unfold parse_nginx_cache_file.
  by rewrite decode_header_short.
Qed.

Lemma X1_short_file_witness :
  parse_nginx_cache_file utc [] = ([], Raise StructError).
Proof. apply (X1_short_file utc []). cbn. lia. Defined.

(** The key region of a parsed file: 6 characters of prefix, the key and
    the newline, from offset 336 to [header_start] or the end of the file. *)
Lemma key_region_length (d : bytes) (hs : Z) (key : str) :
  0 ≤ hs →
  decode_ascii (slice d NGINX_CACHE_HEADER_SIZE hs)
    = Ok (KEY_PREFIX ++ key ++ [LF]) →
  Z.min hs (Z.of_nat (length d)) = 343 + Z.of_nat (length key).
Proof.
  intros Hhs H. apply decode_ascii_Ok in H as [_ H].
  apply (f_equal length) in H. rewrite length_fmap, !length_app in H.
  change (length KEY_PREFIX) with 6%nat in H. cbn [length] in H.
  unfold NGINX_CACHE_HEADER_SIZE in *.
  rewrite slice_nonneg in H by lia.
  rewrite length_take, length_drop in H. lia.
Qed.

(** X2. A file that parses has at least 343 bytes and declares its HTTP
    headers at offset 343 or later: the key region, which ends at
    [header_start] or at the end of the file, whichever comes first, holds
    the 6-character prefix, the key and the newline. *)
Theorem X2_parsed_file_size (tz : LocalZone) (d : bytes) w hdr key hh body :
  parse_nginx_cache_file tz d = (w, Ok (hdr, key, hh, body)) →
  Z.min (header_start hdr) (Z.of_nat (length d))
    = 343 + Z.of_nat (length key)
  ∧ (343 ≤ length d)%nat
  ∧ 343 ≤ header_start hdr.
Proof.
  intros H. apply parse_Ok in H as [Hd He].
  apply decode_header_Ok, decodes_to_offsets_range in Hd as [Hhs _].
  apply extract_regions_Ok in He as (_ & Hk & _).
  pose proof (key_region_length d _ key (proj1 Hhs) Hk). lia.
Qed.

Lemma X2_parsed_file_size_witness :
  Z.min 349 (Z.of_nat (length sample_file)) = 343 + 6
  ∧ (343 ≤ length sample_file)%nat
  ∧ 343 ≤ 349.
Proof.
  apply (X2_parsed_file_size utc sample_file [] (sample_header 349 386 None)
           (lit "abc123") sample_http_header (ascii_bytes "hello")).
  vm_compute. reflexivity.
Defined.

(** ** The exceptions of a parse *)

(** Extraction never fails on the index [key[-1]]: the first assertion has
    already rejected the empty text. *)
Lemma extract_regions_exceptions (d : bytes) (hdr : NginxCacheHeader) w e :
  extract_regions d hdr = (w, Raise e) →
  e = UnicodeDecodeError ∨ e = AssertionError.
Proof.
  intros H.
  destruct (decode_ascii (slice d NGINX_CACHE_HEADER_SIZE (header_start hdr)))
    as [k|e'] eqn:Hk.
  - destruct (key_text_cases k) as [[key ->]|Hbad].
    + rewrite (extract_regions_key _ _ key) in H by done.
      apply bind_lift_Raise_inv in H as [[H _]|(? & _ & H)]; [|discriminate].
      apply decode_ascii_Raise in H. by left.
    + rewrite (extract_regions_bad_key _ _ k) in H by done.
      injection H as <- <-. by right.
  - unfold extract_regions in H. rewrite Hk, bind_lift_Raise in H.
    injection H as <- <-. apply decode_ascii_Raise in Hk. by left.
Qed.

(** X3. A parse that fails raises [struct.error], the unexpected-version
    exception, OverflowError, OSError, ValueError, UnicodeDecodeError or
    AssertionError, and never IndexError; it raises [struct.error] exactly
    on the files of fewer than 59 bytes. *)
Theorem X3_parse_exceptions (tz : LocalZone) (d : bytes) w e :
  parse_nginx_cache_file tz d = (w, Raise e) →
  (e = StructError ∨ e = UnexpectedVersion (le_uint (slice d 0 8))
   ∨ e = OverflowError ∨ e = OSError ∨ e = ValueError
   ∨ e = UnicodeDecodeError ∨ e = AssertionError)
  ∧ (e = StructError ↔ (length d < 59)%nat).
Proof.
  intros H. apply parse_Raise in H as [H|(hdr & Hd & H)].
  - apply decode_header_Raise
      in H as (_ & [[-> ?]|[(-> & ? & ?)|(_ & ? & [-> |[-> |[-> | ->]]])]]);
      (split; [tauto|]); split; try done; try discriminate; lia.
  - apply extract_regions_exceptions in H.
    apply decode_header_Ok in Hd as [Hlen].
    destruct H as [->| ->]; (split; [tauto|]); split;
      try discriminate; lia.
Qed.

Lemma X3_parse_exceptions_witness :
  (UnicodeDecodeError = StructError
   ∨ UnicodeDecodeError = UnexpectedVersion (le_uint (slice binary_key_file 0 8))
   ∨ UnicodeDecodeError = OverflowError ∨ UnicodeDecodeError = OSError
   ∨ UnicodeDecodeError = ValueError
   ∨ UnicodeDecodeError = UnicodeDecodeError
   ∨ UnicodeDecodeError = AssertionError)
  ∧ (UnicodeDecodeError = StructError ↔ (length binary_key_file < 59)%nat).
Proof.
  apply (X3_parse_exceptions utc binary_key_file []).
  vm_compute. reflexivity.
Defined.

(** ** Files that end inside the header *)

(** X4. On a file of at most 332 bytes whose header decodes, the padding
    slice is empty, and since the empty set is not the set holding 0 the
    warning line is printed, for an empty sequence of bytes; the key region
    is empty too and the parse ends in AssertionError. *)
Theorem X4_truncated_header (tz : LocalZone) (d : bytes) w hdr :
  (length d ≤ 332)%nat →
  decode_header tz d = (w, Ok hdr) →
  w = [UnexpectedNonZeroBytes []]
  ∧ parse_nginx_cache_file tz d
      = ([UnexpectedNonZeroBytes []], Raise AssertionError).
Proof.
  intros Hlen Hd.
  assert (Hw : w = [UnexpectedNonZeroBytes []]).
  { apply decode_header_Ok in Hd as [_ _ _ _ _ _ _ _ _ _ _ _ _ _ _ _ _ Hw].
    revert Hw. literal_slices. rewrite drop_ge by lia. done. }
  split; [done|]. subst w.
  unfold parse_nginx_cache_file.
  apply decode_header_Ok in Hd as Hd'.
  apply decodes_to_offsets_range in Hd' as [Hhs _].
  erewrite bind_Ok; [|exact Hd|].
  2:{ rewrite (extract_regions_bad_key d hdr []); [reflexivity| |].
      - unfold NGINX_CACHE_HEADER_SIZE. rewrite slice_nonneg by lia.
        rewrite drop_ge by lia. by rewrite take_nil.
      - intros key Hk. apply (f_equal length) in Hk.
        rewrite !length_app in Hk. cbn in Hk. lia. }
  reflexivity.
Qed.

Lemma X4_truncated_header_witness :
  [UnexpectedNonZeroBytes []] = [UnexpectedNonZeroBytes []]
  ∧ parse_nginx_cache_file utc (take 332 sample_file)
      = ([UnexpectedNonZeroBytes []], Raise AssertionError).
Proof.
  apply (X4_truncated_header utc (take 332 sample_file)
           [UnexpectedNonZeroBytes []] (sample_header 349 386 None)).
  - vm_compute. lia.
  - vm_compute. reflexivity.
Defined.

(** ** The ranges of the decoded fields *)

Lemma le_uint_slice_bound (d : bytes) (a b : Z) :
  0 ≤ a ≤ b → 0 ≤ le_uint (slice d a b) < 256 ^ (b - a).
Proof.
  intros Hab. pose proof (le_uint_range (slice d a b)) as [H0 H1].
  split; [done|]. eapply Z.lt_le_trans; [exact H1|].
  apply Z.pow_le_mono_r; [lia|].
  rewrite slice_nonneg by lia. rewrite length_take. lia.
Qed.

Lemma datetime_or_none_range (tz : LocalZone) (t : Z) (i : datetime) :
  datetime_or_none tz t = Ok (Some i) →
  dt_microsecond i = 0 ∧ datetime_min ≤ dt_wall i ≤ datetime_max.
Proof.
  unfold datetime_or_none, fromtimestamp.
  destruct (bool_decide (t = _)); [discriminate|].
  destruct (bool_decide (time_t_min ≤ t ≤ _)); [|discriminate].
  cbv zeta. destruct (bool_decide (tm_min ≤ _ ≤ _)); [|discriminate].
  case_bool_decide; [|discriminate].
  intros [= <-]. done.
Qed.

(** X5. Every decoded header has version 5 and vary_len 5; updating_sec
    and error_sec are 64-bit, crc32 is 32-bit, valid_msec, header_start and
    body_start are 16-bit and etag_len is 8-bit unsigned integers; and an
    instant that is present has no microseconds and lies between
    [datetime.min] and [datetime.max]. *)
Theorem X5_field_ranges (tz : LocalZone) (d : bytes) w hdr :
  decode_header tz d = (w, Ok hdr) →
  version hdr = 5 ∧ vary_len hdr = 5
  ∧ 0 ≤ updating_sec hdr < 2 ^ 64 ∧ 0 ≤ error_sec hdr < 2 ^ 64
  ∧ 0 ≤ crc32 hdr < 2 ^ 32 ∧ 0 ≤ valid_msec hdr < 2 ^ 16
  ∧ 0 ≤ header_start hdr < 2 ^ 16 ∧ 0 ≤ body_start hdr < 2 ^ 16
  ∧ 0 ≤ etag_len hdr < 2 ^ 8
  ∧ (∀ i, Some i ∈ [valid_sec hdr; last_modified hdr; date hdr] →
       dt_microsecond i = 0 ∧ datetime_min ≤ dt_wall i ≤ datetime_max).
Proof.
  intros H. pose proof (vary_len_is_version _ _ _ _ H) as Hvl.
  apply decode_header_Ok
    in H as [_ Hv Hv5 Hvs Hus Hes Hlm Hdt Hcrc Hms Hhs Hbs Hel _ _ _ _ _].
  rewrite Hus, Hes, Hcrc, Hms, Hhs, Hbs, Hel.
  pose proof (le_uint_slice_bound d 16 24).
  pose proof (le_uint_slice_bound d 24 32).
  pose proof (le_uint_slice_bound d 48 52).
  pose proof (le_uint_slice_bound d 52 54).
  pose proof (le_uint_slice_bound d 54 56).
  pose proof (le_uint_slice_bound d 56 58).
  pose proof (le_uint_slice_bound d 58 59).
  split_and!; try congruence; try lia.
  intros i Hi.
  apply elem_of_cons in Hi as [Hi|Hi];
    [|apply elem_of_cons in Hi as [Hi|Hi];
      [|apply list_elem_of_singleton in Hi]];
    rewrite <- Hi in *; eapply datetime_or_none_range; eauto.
Qed.

Lemma X5_field_ranges_witness :
  let hdr := sample_header 349 386 None in
  version hdr = 5 ∧ vary_len hdr = 5
  ∧ 0 ≤ updating_sec hdr < 2 ^ 64 ∧ 0 ≤ error_sec hdr < 2 ^ 64
  ∧ 0 ≤ crc32 hdr < 2 ^ 32 ∧ 0 ≤ valid_msec hdr < 2 ^ 16
  ∧ 0 ≤ header_start hdr < 2 ^ 16 ∧ 0 ≤ body_start hdr < 2 ^ 16
  ∧ 0 ≤ etag_len hdr < 2 ^ 8
  ∧ (∀ i, Some i ∈ [valid_sec hdr; last_modified hdr; date hdr] →
       dt_microsecond i = 0 ∧ datetime_min ≤ dt_wall i ≤ datetime_max).
Proof.
  apply (X5_field_ranges utc sample_file [] (sample_header 349 386 None)).
  vm_compute. reflexivity.
Defined.

(** * Further properties of the expiry patch *)

(** The file after [f.seek(8); f.write(data)]: its first eight bytes,
    completed by zeros, then [data], then what followed. *)
Lemma seek_write_8 (data d : bytes) :
  seek_write 8 data d
    = take 8 (d ++ replicate 8 x00) ++ data ++ drop (8 + length data) d.
Proof.
  unfold seek_write. rewrite app_assoc. f_equal.
  destruct (decide (8 ≤ length d)%nat) as [Hd|Hd].
  - rewrite take_app_le by lia.
    replace (8 - length d)%nat with 0%nat by lia. by rewrite app_nil_r.
  - rewrite take_ge by lia. rewrite take_app_ge by lia.
    f_equal. rewrite take_replicate. f_equal. lia.
Qed.

Lemma take_8_pad_length (d : bytes) :
  length (take 8 (d ++ replicate 8 x00)) = 8%nat.
Proof. rewrite length_take, length_app, length_replicate. lia. Qed.

Lemma seek_write_8_slice (data d : bytes) :
  length data = 8%nat → slice (seek_write 8 data d) 8 16 = data.
Proof.
  intros Hdata. rewrite seek_write_8. literal_slices.
  rewrite drop_app_length' by (by rewrite take_8_pad_length).
  by rewrite take_app_length' by done.
Qed.

(** X6. A successful patch of a file of any length leaves a file of
    [max(len, 16)] bytes: the eight bytes of the seconds are at offsets
    8..15, the bytes below offset 8 are kept where the file had them and are
    zero where it did not, and the bytes from offset 16 on are kept. *)
Theorem X6_patch_short_file (tz : LocalZone) (d : bytes)
    (expiredt : datetime) :
  0 ≤ mktime tz (dt_wall expiredt) ≤ time_t_max →
  let d' := (set_expire_nginx_cache_file tz d expiredt).1 in
  length d' = (length d `max` 16)%nat
  ∧ slice d' 8 16 = le_bytes 8 (mktime tz (dt_wall expiredt))
  ∧ (∀ i, (i < 8)%nat → d' !! i = Some (default x00 (d !! i)))
  ∧ (∀ i, (16 ≤ i)%nat → d' !! i = d !! i).
Proof.
  intros Ht. cbv zeta. rewrite set_expire_Ok by done. cbn [fst].
  set (data := le_bytes 8 (mktime tz (dt_wall expiredt))).
  assert (Hdata : length data = 8%nat) by apply le_bytes_length.
  rewrite seek_write_8_slice by done.
  rewrite seek_write_8. rewrite Hdata.
  pose proof (take_8_pad_length d) as Hpad.
  split_and!.
  - rewrite !length_app, Hpad, Hdata, length_drop. lia.
  - done.
  - intros i Hi. rewrite lookup_app_l by lia.
    rewrite lookup_take, decide_True by lia.
    destruct (d !! i) as [x|] eqn:Hx.
    + by rewrite lookup_app_l_Some with (x := x).
    + apply lookup_ge_None in Hx. rewrite lookup_app_r by lia.
      unfold default. apply lookup_replicate_2. lia.
  - intros i Hi. rewrite lookup_app_r by lia.
    rewrite lookup_app_r by lia. rewrite lookup_drop, Hpad, Hdata.
    f_equal. lia.
Qed.

Lemma X6_patch_short_file_witness :
  let d' := (set_expire_nginx_cache_file utc [x01; x02; x03]
               (mk_datetime 258 0)).1 in
  length d' = 16%nat
  ∧ slice d' 8 16 = le_bytes 8 258
  ∧ (∀ i, (i < 8)%nat → d' !! i = Some (default x00 ([x01; x02; x03] !! i)))
  ∧ (∀ i, (16 ≤ i)%nat → d' !! i = [x01; x02; x03] !! i).
Proof.
  apply (X6_patch_short_file utc [x01; x02; x03] (mk_datetime 258 0)).
  vm_compute. split; discriminate.
Defined.

(** Writing eight bytes at offset 8 twice: the second write decides. *)
Lemma seek_write_twice (data1 data2 d : bytes) :
  length data1 = 8%nat → length data2 = 8%nat →
  seek_write 8 data2 (seek_write 8 data1 d) = seek_write 8 data2 d.
Proof.
  intros H1 H2. rewrite !seek_write_8, H1, H2.
  pose proof (take_8_pad_length d) as Hpad.
  set (p := take 8 (d ++ replicate 8 x00)) in *.
  f_equal.
  - rewrite <- app_assoc. by rewrite take_app_length' by done.
  - f_equal. rewrite drop_app_ge by lia. rewrite Hpad.
    rewrite drop_app_ge by lia. rewrite H1.
    by rewrite drop_drop.
Qed.

(** X7. The last patch wins: when two patches succeed one after the
    other, the file is the one that the second patch alone leaves; in
    particular a patch repeated with the same instant changes nothing
    more. *)
Theorem X7_last_patch_wins (tz : LocalZone) (d : bytes)
    (expiredt1 expiredt2 : datetime) :
  0 ≤ mktime tz (dt_wall expiredt1) ≤ time_t_max →
  0 ≤ mktime tz (dt_wall expiredt2) ≤ time_t_max →
  set_expire_nginx_cache_file tz
      (set_expire_nginx_cache_file tz d expiredt1).1 expiredt2
    = set_expire_nginx_cache_file tz d expiredt2.
Proof.
  intros H1 H2. rewrite !set_expire_Ok by done. cbn [fst].
  by rewrite seek_write_twice by apply le_bytes_length.
Qed.

Lemma X7_last_patch_wins_witness :
  set_expire_nginx_cache_file utc
      (set_expire_nginx_cache_file utc sample_file
         (mk_datetime 1800000000 0)).1 (mk_datetime 1900000000 0)
    = set_expire_nginx_cache_file utc sample_file (mk_datetime 1900000000 0).
Proof.
  apply (X7_last_patch_wins utc sample_file (mk_datetime 1800000000 0)
           (mk_datetime 1900000000 0)); vm_compute; split; discriminate.
Defined.

(** X8. How a patch ends. When it succeeds, the integer now at offsets
    8..15 is the seconds of the instant and fits [time_t], so it is never
    the sentinel [2^64 - 1]: a patch cannot make the expiry absent. When it
    fails the file is left as it was, and the exception is [struct.error]
    for an instant before the epoch and OverflowError for one whose seconds
    do not fit [time_t]. *)
Theorem X8_patch_outcome (tz : LocalZone) (d : bytes) (expiredt : datetime) :
  let t := mktime tz (dt_wall expiredt) in
  match set_expire_nginx_cache_file tz d expiredt with
  | (d', Ok _) =>
      0 ≤ t ≤ time_t_max
      ∧ le_uint (slice d' 8 16) = t
      ∧ datetime_or_none tz (le_uint (slice d' 8 16)) ≠ Ok None
  | (d', Raise e) =>
      d' = d
      ∧ ((e = StructError ∧ time_t_min ≤ t < 0)
         ∨ (e = OverflowError ∧ ¬ time_t_min ≤ t ≤ time_t_max))
  end.
Proof.
  cbv zeta.
  destruct (decide (time_t_min ≤ mktime tz (dt_wall expiredt) ≤ time_t_max))
    as [Hr|Hr].
  - destruct (decide (0 ≤ mktime tz (dt_wall expiredt))) as [H0|H0].
    + rewrite set_expire_Ok by lia.
      rewrite seek_write_8_slice by apply le_bytes_length.
      rewrite le_uint_le_bytes_id
        by (unfold time_t_max in Hr; cbn; lia).
      split_and!; [lia..|done|].
      unfold datetime_or_none.
      rewrite bool_decide_eq_false_2 by (unfold time_t_max in Hr; lia).
      by destruct (fromtimestamp tz _).
    + unfold set_expire_nginx_cache_file, mktime_timetuple, pack_Q.
      rewrite bool_decide_eq_true_2 by done.
      rewrite bool_decide_eq_false_2 by lia.
      split; [done|]. left. split; [done|lia].
  - unfold set_expire_nginx_cache_file, mktime_timetuple.
    rewrite bool_decide_eq_false_2 by done.
    split; [done|]. by right.
Qed.

(** * The decoder on the nginx layout *)

Lemma pad_length (n : nat) (b : bytes) :
  length (take n (b ++ replicate n x00)) = n.
Proof. rewrite length_take, length_app, length_replicate. lia. Qed.

(** Drops the leading chunks of a concatenation whose lengths are known. *)
Ltac peel_chunks :=
  repeat (rewrite drop_app_ge by (rewrite ?le_bytes_length, ?pad_length; lia);
          rewrite ?le_bytes_length, ?pad_length; cbn [Nat.sub]);
  rewrite ?drop_0;
  rewrite ?take_app_length' by (by rewrite ?le_bytes_length, ?pad_length).

Lemma header_bytes_slices (version valid_sec updating_sec error_sec
    last_modified date crc32 valid_msec header_start body_start
    etag_len : Z) (etag : bytes) (vary_len : Z)
    (vary variant pad rest : bytes) :
  let d := header_bytes version valid_sec updating_sec error_sec
             last_modified date crc32 valid_msec header_start body_start
             etag_len etag vary_len vary variant pad ++ rest in
  (336 ≤ length d)%nat
  ∧ slice d 0 8 = le_bytes 8 version
  ∧ slice d 8 16 = le_bytes 8 valid_sec
  ∧ slice d 16 24 = le_bytes 8 updating_sec
  ∧ slice d 24 32 = le_bytes 8 error_sec
  ∧ slice d 32 40 = le_bytes 8 last_modified
  ∧ slice d 40 48 = le_bytes 8 date
  ∧ slice d 48 52 = le_bytes 4 crc32
  ∧ slice d 52 54 = le_bytes 2 valid_msec
  ∧ slice d 54 56 = le_bytes 2 header_start
  ∧ slice d 56 58 = le_bytes 2 body_start
  ∧ slice d 58 59 = le_bytes 1 etag_len
  ∧ slice d 59 187 = take 128 (etag ++ replicate 128 x00)
  ∧ slice d 188 316 = take 128 (vary ++ replicate 128 x00)
  ∧ slice d 316 332 = take 16 (variant ++ replicate 16 x00)
  ∧ slice d 332 336 = take 4 (pad ++ replicate 4 x00)
  ∧ slice d 0 1 = le_bytes 1 version.
Proof.
  cbv zeta. unfold header_bytes. rewrite <- !app_assoc.
  split_and!; literal_slices; try (peel_chunks; reflexivity).
  rewrite !length_app, !le_bytes_length, !pad_length. lia.
Qed.

(** X9. The decoder reads the layout of [ngx_http_file_cache_header_t]:
    on the bytes of such a header with version 5, whatever follows them,
    the decoded instants are [datetime_or_none] of the three 64-bit fields,
    the text fields are [string_or_none] of the three buffers, the other
    integer fields are the values that were laid out (modulo their width),
    and a line is printed when the padding is not zero. The vary_len field
    alone is not read back: the decoded value is 5 whatever was laid out. *)
Theorem X9_layout_round_trip (tz : LocalZone) (valid_sec updating_sec
    error_sec last_modified date crc32 valid_msec header_start body_start
    etag_len : Z) (etag : bytes) (vary_len : Z)
    (vary variant pad rest : bytes) :
  decode_header tz
    (header_bytes 5 valid_sec updating_sec error_sec last_modified date
       crc32 valid_msec header_start body_start etag_len etag vary_len vary
       variant pad ++ rest)
  = (f1 ← lift (datetime_or_none tz (valid_sec mod 2 ^ 64));
     f4 ← lift (datetime_or_none tz (last_modified mod 2 ^ 64));
     f5 ← lift (datetime_or_none tz (date mod 2 ^ 64));
     f11 ← lift (string_or_none (take 128 (etag ++ replicate 128 x00)));
     f13 ← lift (string_or_none (take 128 (vary ++ replicate 128 x00)));
     f14 ← lift (string_or_none (take 16 (variant ++ replicate 16 x00)));
     _ ← (if bool_decide
               (set_of_bytes (take 4 (pad ++ replicate 4 x00)) ≠ {[ 0 ]})
          then print_stderr
                 (UnexpectedNonZeroBytes (take 4 (pad ++ replicate 4 x00)))
          else mret ());
     mret (mk_header 5 f1 (updating_sec mod 2 ^ 64) (error_sec mod 2 ^ 64)
             f4 f5 (crc32 mod 2 ^ 32) (valid_msec mod 2 ^ 16)
             (header_start mod 2 ^ 16) (body_start mod 2 ^ 16)
             (etag_len mod 2 ^ 8) f11 5 f13 f14)).
Proof.
  destruct (header_bytes_slices 5 valid_sec updating_sec error_sec
              last_modified date crc32 valid_msec header_start body_start
              etag_len etag vary_len vary variant pad rest)
    as (Hlen & H0 & H1 & H2 & H3 & H4 & H5 & H6 & H7 & H8 & H9 & H10 & H11
        & H13 & H14 & H15 & Hv).
  cbv zeta in *. rewrite decode_header_fields by lia. cbv zeta.
  rewrite H0, H1, H2, H3, H4, H5, H6, H7, H8, H9, H10, H11, H13, H14, H15, Hv.
  rewrite !le_uint_le_bytes.
  change (256 ^ Z.of_nat 8) with (2 ^ 64).
  change (256 ^ Z.of_nat 4) with (2 ^ 32).
  change (256 ^ Z.of_nat 2) with (2 ^ 16).
  change (256 ^ Z.of_nat 1) with (2 ^ 8).
  change (5 mod 2 ^ 64) with 5. change (5 mod 2 ^ 8) with 5.
  by rewrite bool_decide_eq_false_2 by (intros ?; done).
Qed.

(** * The command line *)

Lemma parse_Ok_min_length (tz : LocalZone) (d : bytes) w r :
  parse_nginx_cache_file tz d = (w, Ok r) → (343 ≤ length d)%nat.
Proof.
  destruct r as [[[hdr key] hh] body]. intros H.
  apply parse_Ok in H as [Hd He].
  apply decode_header_Ok, decodes_to_offsets_range in Hd as [Hhs _].
  apply extract_regions_Ok in He as (_ & Hk & _).
  pose proof (key_region_length d _ key (proj1 Hhs) Hk). lia.
Qed.

Lemma same_but_expiry_refl (d : bytes) : same_but_expiry d d.
Proof. by split. Qed.

Lemma same_but_expiry_trans (d1 d2 d3 : bytes) :
  same_but_expiry d1 d2 → same_but_expiry d2 d3 → same_but_expiry d1 d3.
Proof.
  intros [Hl1 H1] [Hl2 H2]. split; [congruence|].
  intros i Hi. rewrite H2, H1; done.
Qed.

(** The patch of a file of at least 16 bytes, whether it succeeds or not. *)
Lemma set_expire_same_but_expiry (tz : LocalZone) (d : bytes) expiredt :
  (16 ≤ length d)%nat →
  same_but_expiry d (set_expire_nginx_cache_file tz d expiredt).1.
Proof.
  intros Hd. unfold set_expire_nginx_cache_file.
  destruct (mktime_timetuple tz expiredt) as [t|e];
    [|apply same_but_expiry_refl].
  unfold pack_Q. case_bool_decide; [|apply same_but_expiry_refl].
  cbn [fst]. rewrite seek_write_splice by lia. split.
  - apply splice_length. rewrite le_bytes_length. lia.
  - intros i Hi. apply lookup_splice_outside;
      rewrite ?le_bytes_length; lia.
Qed.

(** The body of the loop, case by case. *)
Lemma main_body_cases (tz : LocalZone)
    (strptime : str → date_format → option datetime) (args : Args)
    (cache_file : string) (w : world) :
  main_body tz strptime args cache_file w =
    match fs w !! cache_file with
    | None => (w, Failed (FileNotFoundError cache_file))
    | Some d =>
        let printed := (parse_nginx_cache_file tz d).1 in
        let w1 := mk_world (fs w) (stdout w) (stderr w ++ printed) in
        match (parse_nginx_cache_file tz d).2 with
        | Raise e => (w1, Failed (Uncaught e))
        | Ok (hdr, key, http_header, http_body) =>
            let items :=
              if arg_quiet args then []
              else record_items cache_file hdr key http_header http_body in
            match set_expire_given args with
            | None =>
                (mk_world (fs w) (stdout w ++ items) (stderr w ++ printed),
                 Done ())
            | Some s =>
                match parse_date_string strptime s with
                | Raise e => (w1, Failed (Uncaught e))
                | Ok expiredt =>
                    let patched :=
                      set_expire_nginx_cache_file tz d expiredt in
                    let fs' := <[cache_file := patched.1]> (fs w) in
                    match patched.2 with
                    | Raise e =>
                        (mk_world fs' (stdout w) (stderr w ++ printed),
                         Failed (Uncaught e))
                    | Ok _ =>
                        (mk_world fs' (stdout w ++ items)
                           (stderr w ++ printed), Done ())
                    end
                end
            end
        end
    end.
Proof.
  unfold main_body, parse_file, set_expire_file.
  unfold mbind, IO_bind, io_open at 1.
  destruct (fs w !! cache_file) as [d|] eqn:Hf; [|done].
  destruct (parse_nginx_cache_file tz d)
    as [printed [[[[hdr key] hh] body]|e]];
    cbn -[parse_date_string set_expire_nginx_cache_file]; [|done].
  destruct (set_expire_given args) as [s|];
    cbn -[parse_date_string set_expire_nginx_cache_file].
  - destruct (parse_date_string strptime s) as [dt|e];
      cbn -[set_expire_nginx_cache_file]; [|done].
    unfold io_open. cbn -[set_expire_nginx_cache_file]. rewrite Hf.
    destruct (set_expire_nginx_cache_file tz d dt) as [d' [[]|e]]; cbn;
      [|done].
    destruct (arg_quiet args); cbn; [|done].
    by rewrite app_nil_r.
  - destruct (arg_quiet args); cbn; [|done].
    destruct w; cbn. by rewrite app_nil_r.
Qed.

(** A loop that runs over [l1 ++ l2] runs over [l1] and, unless that ended
    early, over [l2]. *)
Lemma for_each_app {A} (body : A → IO unit) (l1 l2 : list A) (w : world) :
  for_each body (l1 ++ l2) w =
    match for_each body l1 w with
    | (w1, Done _) => for_each body l2 w1
    | (w1, Failed e) => (w1, Failed e)
    end.
Proof.
  revert w. induction l1 as [|x l1 IH]; intros w; [done|].
  cbn [app for_each]. unfold mbind, IO_bind.
  destruct (body x w) as [w1 [[]|e]]; [apply IH|done].
Qed.

(** A relation between worlds that every turn of the loop keeps holds
    between the start and the end of the loop. *)
Lemma for_each_invariant {A} (P : world → world → Prop)
    (body : A → IO unit) (l : list A) :
  (∀ w, P w w) →
  (∀ w1 w2 w3, P w1 w2 → P w2 w3 → P w1 w3) →
  (∀ x w, P w (body x w).1) →
  ∀ w, P w (for_each body l w).1.
Proof.
  intros Hrefl Htrans Hbody. induction l as [|x l IH]; intros w.
  - apply Hrefl.
  - cbn [for_each]. unfold mbind, IO_bind.
    pose proof (Hbody x w) as Hx.
    destruct (body x w) as [w1 [[]|e]]; cbn [fst] in *; [|done].
    eapply Htrans; [exact Hx|apply IH].
Qed.

(** X10. Whatever the arguments and the files, [main] creates no file,
    removes none and changes no length: in every file only the bytes at
    offsets 8..15 can differ from what they were. *)
Theorem X10_main_changes_only_the_expiry (tz : LocalZone)
    (strptime : str → date_format → option datetime) (args : Args)
    (w : world) (p : string) :
  option_Forall2 same_but_expiry
    (fs w !! p) (fs (main tz strptime args w).1 !! p).
Proof.
  unfold main. revert w.
  apply (for_each_invariant
           (λ w w', option_Forall2 same_but_expiry (fs w !! p) (fs w' !! p))).
  - intros w. destruct (fs w !! p); constructor. apply same_but_expiry_refl.
  - intros w1 w2 w3 H12 H23.
    destruct H12; inversion H23; subst; constructor.
    eapply same_but_expiry_trans; eauto.
  - intros f w.
    assert (Hrefl : option_Forall2 same_but_expiry (fs w !! p) (fs w !! p)).
    { destruct (fs w !! p); constructor. apply same_but_expiry_refl. }
    rewrite main_body_cases.
    destruct (fs w !! f) as [d|] eqn:Hf; [|done]. cbv zeta.
    destruct (parse_nginx_cache_file tz d) as [printed [r|e]] eqn:Hp;
      cbn [fst snd]; [|done].
    destruct r as [[[hdr key] hh] body].
    destruct (set_expire_given args) as [s|]; [|done].
    destruct (parse_date_string strptime s) as [dt|e]; [|done].
    assert (Hpatch : option_Forall2 same_but_expiry (fs w !! p)
      (<[f := (set_expire_nginx_cache_file tz d dt).1]> (fs w) !! p)).
    { destruct (decide (f = p)) as [->|Hne].
      - rewrite lookup_insert_eq, Hf. constructor.
        apply set_expire_same_but_expiry.
        apply parse_Ok_min_length in Hp. lia.
      - by rewrite lookup_insert_ne. }
    by destruct (set_expire_nginx_cache_file tz d dt).2.
Qed.

(** X11. [main] parses a file before it patches it: a file whose contents
    do not parse is left as it is, however often it is named. *)
Theorem X11_main_keeps_unparsed_files (tz : LocalZone)
    (strptime : str → date_format → option datetime) (args : Args)
    (w : world) (p : string) (d : bytes) (e : exn) :
  fs w !! p = Some d →
  (parse_nginx_cache_file tz d).2 = Raise e →
  fs (main tz strptime args w).1 !! p = Some d.
Proof.
  intros Hp He. unfold main. revert w Hp.
  apply (for_each_invariant
           (λ w w', fs w !! p = Some d → fs w' !! p = Some d)); [auto..|].
  intros f w Hp. rewrite main_body_cases.
  destruct (fs w !! f) as [d0|] eqn:Hf; [|done]. cbv zeta.
  destruct (parse_nginx_cache_file tz d0) as [printed [r|e0]] eqn:Hp0;
    cbn [fst snd]; [|done].
  destruct r as [[[hdr key] hh] body].
  destruct (set_expire_given args) as [s|]; [|done].
  destruct (parse_date_string strptime s) as [dt|e1]; [|done].
  assert (f ≠ p).
  { intros ->. rewrite Hp in Hf. injection Hf as <-.
    rewrite Hp0 in He. discriminate. }
  destruct (set_expire_nginx_cache_file tz d0 dt).2; cbn [fst fs];
    by rewrite lookup_insert_ne.
Qed.

Lemma X11_main_keeps_unparsed_files_witness :
  fs (main utc (sample_strptime (mk_datetime 1800000000 0))
        (mk_args (Some (lit "2027-01-15")) ["a"; "b"]%string false)
        sample_world).1 !! "b"%string
    = Some version_4_file.
Proof.
  apply (X11_main_keeps_unparsed_files utc
           (sample_strptime (mk_datetime 1800000000 0)) _ sample_world
           "b"%string version_4_file (UnexpectedVersion 4)).
  - vm_compute. reflexivity.
  - vm_compute. reflexivity.
Defined.

(** X12. Without [--set-expire], and also when its value is the empty
    string, [main] changes no file. *)
Theorem X12_main_read_only (tz : LocalZone)
    (strptime : str → date_format → option datetime) (args : Args)
    (w : world) :
  arg_set_expire args = None ∨ arg_set_expire args = Some [] →
  fs (main tz strptime args w).1 = fs w.
Proof.
  intros Hse.
  assert (Hg : set_expire_given args = None)
    by (unfold set_expire_given; by destruct Hse as [-> | ->]).
  unfold main. revert w.
  apply (for_each_invariant (λ w w', fs w' = fs w)); [done|congruence|].
  intros f w. rewrite main_body_cases, Hg.
  destruct (fs w !! f) as [d|]; [|done]. cbv zeta.
  by destruct (parse_nginx_cache_file tz d).2 as [[[[? ?] ?] ?]|?].
Qed.

Lemma X12_main_read_only_witness :
  fs (main utc (sample_strptime (mk_datetime 1800000000 0))
        (mk_args (Some []) ["a"; "b"]%string false) sample_world).1
    = fs sample_world.
Proof.
  apply (X12_main_read_only utc (sample_strptime (mk_datetime 1800000000 0))
           (mk_args (Some []) ["a"; "b"]%string false) sample_world).
  right. reflexivity.
Defined.

(** X13. With [--quiet], [main] prints nothing on stdout. *)
Theorem X13_main_quiet (tz : LocalZone)
    (strptime : str → date_format → option datetime) (args : Args)
    (w : world) :
  arg_quiet args = true →
  stdout (main tz strptime args w).1 = stdout w.
Proof.
  intros Hq. unfold main. revert w.
  apply (for_each_invariant (λ w w', stdout w' = stdout w));
    [done|congruence|].
  intros f w. rewrite main_body_cases, Hq.
  destruct (fs w !! f) as [d|]; [|done]. cbv zeta.
  destruct (parse_nginx_cache_file tz d).2 as [[[[? ?] ?] ?]|?]; [|done].
  destruct (set_expire_given args) as [s|];
    [|cbn; by rewrite app_nil_r].
  destruct (parse_date_string strptime s) as [dt|?]; [|done].
  destruct (set_expire_nginx_cache_file tz d dt).2; cbn;
    [by rewrite app_nil_r|done].
Qed.

Lemma X13_main_quiet_witness :
  stdout (main utc (sample_strptime (mk_datetime 1800000000 0))
            (mk_args (Some (lit "2027-01-15")) ["a"; "b"]%string true)
            sample_world).1
    = stdout sample_world.
Proof.
  apply (X13_main_quiet utc (sample_strptime (mk_datetime 1800000000 0))
           (mk_args (Some (lit "2027-01-15")) ["a"; "b"]%string true)
           sample_world).
  reflexivity.
Defined.

(** X14. [main] stops at the first file that fails: on the files
    [l1 ++ l2] it does what it does on [l1], and goes on to [l2] only when
    that ended without an exception; otherwise the files of [l2] are
    neither read, nor patched, nor printed. *)
Theorem X14_main_stops_at_first_failure (tz : LocalZone)
    (strptime : str → date_format → option datetime)
    (set_expire : option str) (l1 l2 : list string) (quiet : bool)
    (w : world) :
  main tz strptime (mk_args set_expire (l1 ++ l2) quiet) w =
    match main tz strptime (mk_args set_expire l1 quiet) w with
    | (w1, Done _) => main tz strptime (mk_args set_expire l2 quiet) w1
    | (w1, Failed e) => (w1, Failed e)
    end.
Proof. unfold main. cbn [arg_files]. apply for_each_app. Qed.

Lemma parse_date_string_no_format
    (strptime : str → date_format → option datetime) (s : str) :
  (∀ fmt, strptime s fmt = None) →
  parse_date_string strptime s = Raise ValueError.
Proof.
  intros H. unfold parse_date_string, date_formats. cbn. by rewrite !H.
Qed.

Lemma set_expire_given_Some (args : Args) (s : str) :
  arg_set_expire args = Some s → s ≠ [] → set_expire_given args = Some s.
Proof.
  intros Hs Hne. unfold set_expire_given. rewrite Hs. by destruct s.
Qed.

(** X15. A value of [--set-expire] that has none of the three formats is
    found out only after the first file has been parsed: [main] ends on
    that file, with FileNotFoundError when it does not exist, with the
    exception of the parse when it does not parse, and with ValueError
    otherwise; no file is changed and nothing is printed on stdout. *)
Theorem X15_main_bad_date (tz : LocalZone)
    (strptime : str → date_format → option datetime) (args : Args)
    (w : world) (s : str) (f : string) (l : list string) :
  arg_set_expire args = Some s → s ≠ [] →
  (∀ fmt, strptime s fmt = None) →
  arg_files args = f :: l →
  main tz strptime args w =
    match fs w !! f with
    | None => (w, Failed (FileNotFoundError f))
    | Some d =>
        (mk_world (fs w) (stdout w)
           (stderr w ++ (parse_nginx_cache_file tz d).1),
         Failed (Uncaught match (parse_nginx_cache_file tz d).2 with
                          | Raise e => e
                          | Ok _ => ValueError
                          end))
    end.
Proof.
  intros Hs Hne Hfmt Hl. unfold main. rewrite Hl. cbn [for_each].
  unfold mbind, IO_bind. rewrite main_body_cases.
  rewrite (set_expire_given_Some args s) by done.
  rewrite parse_date_string_no_format by done.
  destruct (fs w !! f) as [d|]; [|done]. cbv zeta.
  by destruct (parse_nginx_cache_file tz d).2 as [[[[? ?] ?] ?]|?].
Qed.

Lemma X15_main_bad_date_witness :
  main utc (λ _ _, None)
    (mk_args (Some (lit "tomorrow")) ["a"; "b"]%string false) sample_world
  = (sample_world, Failed (Uncaught ValueError)).
Proof.
  rewrite (X15_main_bad_date utc (λ _ _, None)
             (mk_args (Some (lit "tomorrow")) ["a"; "b"]%string false)
             sample_world (lit "tomorrow") "a"%string ["b"%string]).
  - vm_compute. reflexivity.
  - reflexivity.
  - discriminate.
  - reflexivity.
  - reflexivity.
Defined.



(** * The regions of a parsed file *)

Lemma decode_ascii_bytes (b : bytes) (t : str) :
  decode_ascii b = Ok t → byte_of_ascii <$> t = b.
Proof.
  intros H. apply decode_ascii_Ok in H as [_ ->].
  rewrite <- list_fmap_compose. rewrite <- (list_fmap_id b) at 2.
  apply list_fmap_ext. intros _ x _. apply byte_of_ascii_of_byte.
Qed.

(** X17. When a file parses and its offsets are in order and inside the
    file, the pieces tile it: the file is its first 336 bytes, then the
    bytes of the wrapped key, then the bytes of the HTTP header text, then
    the body. *)
Theorem X17_regions_tile_the_file (tz : LocalZone) (d : bytes) w hdr key
    http_header http_body :
  parse_nginx_cache_file tz d = (w, Ok (hdr, key, http_header, http_body)) →
  header_start hdr ≤ body_start hdr →
  body_start hdr ≤ Z.of_nat (length d) →
  d = take 336 d
        ++ (byte_of_ascii <$> (KEY_PREFIX ++ key ++ [LF]))
        ++ (byte_of_ascii <$> http_header)
        ++ http_body
  ∧ Z.of_nat (length http_header) = body_start hdr - header_start hdr
  ∧ Z.of_nat (length http_body) = Z.of_nat (length d) - body_start hdr.
Proof.
  intros H Hle Hlen. apply parse_Ok in H as [Hd He].
  apply decode_header_Ok, decodes_to_offsets_range in Hd as [Hhs Hbs].
  apply extract_regions_Ok in He as (_ & Hk & Hh & ->).
  pose proof (key_region_header_start d _ key (proj1 Hhs) Hk) as Hmin.
  unfold NGINX_CACHE_HEADER_SIZE in *.
  apply decode_ascii_bytes in Hk as Hk'. apply decode_ascii_bytes in Hh as Hh'.
  apply decode_ascii_Ok in Hh as [_ ->].
  rewrite Hk', Hh'. rewrite length_fmap.
  rewrite !slice_nonneg, slice_from_nonneg by lia.
  change (Z.to_nat 336) with 336%nat.
  split_and!.
  - rewrite <- (take_drop 336 d) at 1. f_equal.
    rewrite <- (take_drop (Z.to_nat (header_start hdr) - 336) (drop 336 d))
      at 1.
    f_equal. rewrite drop_drop.
    replace (336 + (Z.to_nat (header_start hdr) - 336))%nat
      with (Z.to_nat (header_start hdr)) by lia.
    rewrite <- (take_drop (Z.to_nat (body_start hdr)
                            - Z.to_nat (header_start hdr))
                  (drop (Z.to_nat (header_start hdr)) d)) at 1.
    f_equal. rewrite drop_drop. f_equal. lia.
  - rewrite length_take, length_drop. lia.
  - rewrite length_drop. lia.
Qed.

Lemma X17_regions_tile_the_file_witness :
  sample_file = take 336 sample_file
        ++ (byte_of_ascii <$> (KEY_PREFIX ++ lit "abc123" ++ [LF]))
        ++ (byte_of_ascii <$> sample_http_header)
        ++ ascii_bytes "hello"
  ∧ Z.of_nat (length sample_http_header) = 386 - 349
  ∧ Z.of_nat (length (ascii_bytes "hello"))
      = Z.of_nat (length sample_file) - 386.
Proof.
  apply (X17_regions_tile_the_file utc sample_file []
           (sample_header 349 386 None) (lit "abc123") sample_http_header
           (ascii_bytes "hello")).
  - vm_compute. reflexivity.
  - vm_compute. discriminate.
  - vm_compute. discriminate.
Defined.
